(** * TabbedWindow: the tab registry and view controller of
      electron/addon/tabs/index.js

    A shallow embedding of class [TabbedWindow]: its fields are a record, its
    methods are computations in a small monad that threads the object, collects
    the calls made on the host (Electron) in order, and can end in a JavaScript
    exception.

    Conventions. The objects [views] and [tabConfigs] are maps keyed by the id
    itself (the property key of a number, of [null] and of [undefined] are
    three different strings). A view is identified by its id, which is the id
    of its web contents. The exceptions modelled are the two that
    [setCurrentView] can end in when [views] has no object for the id; calls
    on host objects that exist are taken to return. Listeners that the host
    fires later (page events, the window's [closed]) are not part of a method's
    run. *)

From stdpp Require Import gmap strings list fin_maps.

(** ** JavaScript values *)

(** A tab id as it travels through the code: [view.webContents.id] is a number,
    an id received over IPC or read out of range of [this.tabs] may be [null]
    or [undefined]. Only integral numbers are modelled. *)
Inductive jsid : Type :=
  | JUndefined
  | JNull
  | JNum (n : Z).

#[global] Instance jsid_eq_dec : EqDecision jsid.
Proof. solve_decision. Defined.

#[global] Instance jsid_countable : Countable jsid.
Proof.
  refine (inj_countable'
    (λ i, match i with
          | JUndefined => inl false
          | JNull => inl true
          | JNum n => inr n
          end)
    (λ c, match c with
          | inl false => JUndefined
          | inl true => JNull
          | inr n => JNum n
          end) _).
  by intros [].
Defined.

(** [!id] is false exactly for a non-zero number. *)
Definition truthy (v : jsid) : bool :=
  match v with
  | JNum n => negb (n =? 0)%Z
  | _ => false
  end.

(** [a === b] on ids. *)
Definition strict_eq (a b : jsid) : bool := bool_decide (a = b).

(** The values held by the fields of a [Tab]. *)
Inductive jsval : Type :=
  | VUndefined
  | VBool (b : bool)
  | VStr (s : string).

#[global] Instance jsval_eq_dec : EqDecision jsval.
Proof. solve_decision. Defined.

(** A [Tab] is a plain object: field name to value. *)
Abbreviation Tab := (gmap string jsval).

(** [Tabs] is [Object.<TabID, Tab>]; a closed tab's entry is [null], which is
    [Some None] here, and a key never written is [None]. *)
Abbreviation Tabs := (gmap jsid (option Tab)).

(** ** Arrays *)

(** [arr.indexOf(x)], with [-1] when [x] does not occur. *)
Fixpoint indexOf (arr : list jsid) (x : jsid) : Z :=
  match arr with
  | [] => -1
  | y :: rest =>
      if strict_eq y x then 0
      else let i := indexOf rest x in
           if (i <? 0)%Z then -1 else (i + 1)%Z
  end.

(** [arr[i]]: [undefined] outside the array. *)
Definition array_get (arr : list jsid) (i : Z) : jsid :=
  if (i <? 0)%Z then JUndefined
  else default JUndefined (arr !! Z.to_nat i).

(** [arr.splice(start, 0, x)]: a negative [start] counts from the end, and the
    position is clamped to the array. *)
Definition splice_insert (arr : list jsid) (start : Z) (x : jsid) : list jsid :=
  let len := Z.of_nat (length arr) in
  let pos := if (start <? 0)%Z then Z.max (len + start) 0 else Z.min start len in
  take (Z.to_nat pos) arr ++ x :: drop (Z.to_nat pos) arr.

(** [arr.filter((v) => v !== id)]. *)
Definition filter_ne (id : jsid) (arr : list jsid) : list jsid :=
  List.filter (λ v, negb (strict_eq v id)) arr.

(** ** Host objects *)

(** What of a host [WebContents] the controller reads or sets. [wc_marks] is
    the ["__IS_INITIALIZED__"] property that [loadURL] puts on it. *)
Record WebContents : Type := mkWebContents {
  wc_id : Z;
  wc_isDestroyed : bool;
  wc_getURL : string;
  wc_canGoBack : bool;
  wc_canGoForward : bool;
  wc_marks : bool
}.

Record BrowserView : Type := mkBrowserView {
  webContents : WebContents
}.

(** [view.id = view.webContents.id]. *)
Definition view_id (v : BrowserView) : jsid := JNum (wc_id (webContents v)).

(** [new BrowserView(...)], with the id the host gives to its web contents. *)
Definition new_BrowserView (id : Z) : BrowserView :=
  mkBrowserView (mkWebContents id false "" false false false).

(** The main window: [isDestroyed()], the identity of [win.webContents] (the
    control panel), and [getContentSize()]. *)
Record BrowserWindow : Type := mkBrowserWindow {
  win_isDestroyed : bool;
  win_webContents : Z;
  win_contentWidth : Z;
  win_contentHeight : Z
}.

Record Bounds : Type := mkBounds {
  b_height : Z;
  b_width : Z;
  b_x : Z;
  b_y : Z
}.

#[global] Instance Bounds_eq_dec : EqDecision Bounds.
Proof. solve_decision. Defined.

(** The [IpcMainEvent] of a message: who sent it. *)
Record IpcMainEvent : Type := mkIpcMainEvent {
  sender : Z
}.

(** The options read by the class. *)
Record Options : Type := mkOptions {
  blankPage : string;
  blankTitle : string;
  controlHeight : Z;
  startPage : string
}.

(** Behaviour of the host that the class depends on and does not define:
    which property names of a web contents are functions ([typeof
    webContents[name] === "function"]), whether [win.addBrowserView]
    throws when its argument is not a view, and what [webContents[name]()],
    the function called with no argument, throws when it does not return
    ([None]: it returns). *)
Record Host : Type := mkHost {
  wc_is_function : string → bool;
  addBrowserView_checks : bool;
  wc_call_error : string → WebContents → option string
}.

(** ** The object *)

Record TabbedWindow : Type := mkTabbedWindow {
  options : Options;
  defCurrentViewId : jsid;
  defTabConfigs : Tabs;
  ipc : option IpcMainEvent;
  tabs : list jsid;
  views : gmap jsid (option BrowserView);
  win : BrowserWindow
}.

(** Calls on the host and events emitted, in program order. A view is named by
    its id. *)
Inductive Effect : Type :=
  | RemoveBrowserView (view : jsid)
  | AddBrowserView (view : option jsid)
  | SetBounds (view : jsid) (b : Bounds)
  | SetAutoResize (view : jsid)
  | SetWindowOpenHandler (view : jsid)
  | ReplyActiveUpdate (id : jsid)
  | ReplyTabsUpdate (confs : Tabs) (order : list jsid)
  | SendFromMain (currentTabId : jsid)
  | WcFocus (view : jsid)
  | WcOnEvents (view : jsid)
  | WcLoadURL (view : jsid) (url : string)
  | WcDestroy (view : jsid)
  | WcCall (view : jsid) (name : string)
  | LogWarn (actionName : string)
  | WinShow
  | EmitNewTab (view : jsid) (openedURL : option string) (lastView : option jsid)
  | EmitCloseTab (id : jsid)
  | EmitControlReady.

#[global] Instance Effect_eq_dec : EqDecision Effect.
Proof. solve_decision. Defined.

(** ** The monad *)

Inductive Outcome (A : Type) : Type :=
  | Done (a : A)
  | Thrown (err : string).
Arguments Done {A} a.
Arguments Thrown {A} err.

Definition M (A : Type) : Type :=
  TabbedWindow → Outcome A * TabbedWindow * list Effect.

Definition ret {A} (a : A) : M A := λ st, (Done a, st, []).

Definition bind {A B} (m : M A) (f : A → M B) : M B := λ st,
  match m st with
  | (Done a, st1, tr1) =>
      match f a st1 with
      | (r, st2, tr2) => (r, st2, tr1 ++ tr2)
      end
  | (Thrown err, st1, tr1) => (Thrown err, st1, tr1)
  end.

Declare Scope js_scope.
Delimit Scope js_scope with js.
Notation "x <- m ;; k" := (bind m (λ x, k))
  (at level 100, m at next level, right associativity) : js_scope.
Notation "m ;;; k" := (bind m (λ _, k))
  (at level 100, right associativity) : js_scope.
Open Scope js_scope.

Definition get : M TabbedWindow := λ st, (Done st, st, []).
Definition modify (f : TabbedWindow → TabbedWindow) : M unit :=
  λ st, (Done tt, f st, []).
Definition effect (e : Effect) : M unit := λ st, (Done tt, st, [e]).
Definition throw {A} (err : string) : M A := λ st, (Thrown err, st, []).
Definition when (b : bool) (m : M unit) : M unit := if b then m else ret tt.

(** The state and the trace a computation leaves behind. *)
Definition state_of {A} (r : Outcome A * TabbedWindow * list Effect) : TabbedWindow :=
  snd (fst r).
Definition trace_of {A} (r : Outcome A * TabbedWindow * list Effect) : list Effect :=
  snd r.
Definition completed {A} (r : Outcome A * TabbedWindow * list Effect) : bool :=
  match fst (fst r) with Done _ => true | Thrown _ => false end.

(** Field assignments. *)
Definition set_defCurrentViewId (id : jsid) (st : TabbedWindow) : TabbedWindow :=
  mkTabbedWindow (options st) id (defTabConfigs st) (ipc st) (tabs st) (views st) (win st).
Definition set_defTabConfigs (v : Tabs) (st : TabbedWindow) : TabbedWindow :=
  mkTabbedWindow (options st) (defCurrentViewId st) v (ipc st) (tabs st) (views st) (win st).
Definition set_ipc (e : option IpcMainEvent) (st : TabbedWindow) : TabbedWindow :=
  mkTabbedWindow (options st) (defCurrentViewId st) (defTabConfigs st) e (tabs st) (views st) (win st).
Definition set_tabs (l : list jsid) (st : TabbedWindow) : TabbedWindow :=
  mkTabbedWindow (options st) (defCurrentViewId st) (defTabConfigs st) (ipc st) l (views st) (win st).
Definition set_views (vs : gmap jsid (option BrowserView)) (st : TabbedWindow) : TabbedWindow :=
  mkTabbedWindow (options st) (defCurrentViewId st) (defTabConfigs st) (ipc st) (tabs st) vs (win st).

(** [this.views[id]] when it is an object ([null] and [undefined] are both
    falsy and are not told apart). *)
Definition views_at (st : TabbedWindow) (id : jsid) : option BrowserView :=
  mjoin (views st !! id).

(** The constructor: an empty registry on the main window. *)
Definition constructor (opts : Options) (w : BrowserWindow) : TabbedWindow :=
  mkTabbedWindow opts JNull ∅ None [] ∅ w.

(** ** The methods of [TabbedWindow] *)

(** [url || fallback] on strings: the empty string and [undefined] are falsy. *)
Definition or_string (url : option string) (fallback : string) : string :=
  match url with
  | Some s => if String.eqb s "" then fallback else s
  | None => fallback
  end.

(** What calling the method [name] does to the web contents itself when the
    call returns, as far as the class can see it afterwards: [destroy()] makes
    [isDestroyed()] true. *)
Definition wc_invoke (name : string) (wc : WebContents) : WebContents :=
  if String.eqb name "destroy"
  then mkWebContents (wc_id wc) true (wc_getURL wc) (wc_canGoBack wc)
         (wc_canGoForward wc) (wc_marks wc)
  else wc.

(** [webContents[MARKS] = true]. *)
Definition wc_set_marks (wc : WebContents) : WebContents :=
  mkWebContents (wc_id wc) (wc_isDestroyed wc) (wc_getURL wc) (wc_canGoBack wc)
    (wc_canGoForward wc) true.

Section Methods.

Variable host : Host.

(** [get currentViewId]. *)
Definition currentViewId (st : TabbedWindow) : jsid := defCurrentViewId st.

(** [get currentView]: [this.currentViewId ? this.views[this.currentViewId] : null]. *)
Definition currentView (st : TabbedWindow) : option BrowserView :=
  if truthy (currentViewId st) then views_at st (currentViewId st) else None.

(** [get currentWebContents]. *)
Definition currentWebContents (st : TabbedWindow) : option WebContents :=
  webContents <$> currentView st.

(** [get tabConfigs]. *)
Definition tabConfigs (st : TabbedWindow) : Tabs := defTabConfigs st.

Definition getControlBounds (st : TabbedWindow) : Bounds :=
  mkBounds (controlHeight (options st)) (win_contentWidth (win st)) 0 0.

Definition setContentBounds : M unit :=
  st <- get ;;
  let controlBounds := getControlBounds st in
  match currentView st with
  | Some v =>
      effect (SetBounds (view_id v)
        (mkBounds (win_contentHeight (win st) - b_height controlBounds)
                  (win_contentWidth (win st))
                  0
                  (b_y controlBounds + b_height controlBounds)))
  | None => ret tt
  end.

(** [set currentViewId(id)]. *)
Definition set_currentViewId (id : jsid) : M unit :=
  modify (set_defCurrentViewId id) ;;;
  setContentBounds ;;;
  st <- get ;;
  when (bool_decide (is_Some (ipc st))) (effect (ReplyActiveUpdate id)).

(** [set tabConfigs(v)]. *)
Definition set_tabConfigs (v : Tabs) : M unit :=
  modify (set_defTabConfigs v) ;;;
  st <- get ;;
  when (bool_decide (is_Some (ipc st))) (effect (ReplyTabsUpdate v (tabs st))).

Definition destroyView (viewId : jsid) : M unit :=
  st <- get ;;
  match views_at st viewId with
  | Some view =>
      when (negb (wc_isDestroyed (webContents view)))
        (effect (WcDestroy (view_id view))) ;;;
      modify (λ st, set_views (<[viewId := None]> (views st)) st)
  | None => ret tt
  end.

(** [loadURL(url)]. The listeners put on the web contents are one [WcOnEvents]
    effect; what they do when the host fires them is [setTabConfig]. *)
Definition loadURL (url : string) : M unit :=
  st <- get ;;
  match currentView st with
  | None => ret tt
  | Some cv =>
      if String.eqb url "" then ret tt
      else if wc_marks (webContents cv) then effect (WcLoadURL (view_id cv) url)
      else
        effect (WcOnEvents (view_id cv)) ;;;
        effect (WcLoadURL (view_id cv) url) ;;;
        modify (λ st, set_views
          (<[currentViewId st := Some (mkBrowserView (wc_set_marks (webContents cv)))]>
             (views st)) st) ;;;
        setContentBounds
  end.

Definition setCurrentView (viewId : jsid) : M unit :=
  if negb (truthy viewId) then ret tt
  else
    st <- get ;;
    match currentView st with
    | Some v => effect (RemoveBrowserView (view_id v))
    | None => ret tt
    end ;;;
    match views_at st viewId with
    | Some v => effect (AddBrowserView (Some (view_id v)))
    | None =>
        if addBrowserView_checks host
        then throw "TypeError: addBrowserView expects a BrowserView"
        else effect (AddBrowserView None)
    end ;;;
    set_currentViewId viewId ;;;
    effect (SendFromMain viewId) ;;;
    st <- get ;;
    match currentWebContents st with
    | Some wc => effect (WcFocus (JNum (wc_id wc)))
    | None => throw "TypeError: cannot read properties of undefined (reading 'focus')"
    end.

(** [setTabConfig(viewId, kv)]: the object spread
    [{...tab, canGoBack, canGoForward, ...kv}] is a left-biased union, and
    spreading [null] or [undefined] gives no field. *)
Definition setTabConfig (viewId : jsid) (kv : Tab) : M Tabs :=
  st <- get ;;
  let tab := default ∅ (mjoin (tabConfigs st !! viewId)) in
  let wc := webContents <$> views_at st viewId in
  let flag (f : WebContents → bool) :=
    match wc with Some w => VBool (f w) | None => VUndefined end in
  set_tabConfigs
    (<[viewId := Some (kv ∪ <["canGoForward" := flag wc_canGoForward]>
                              (<["canGoBack" := flag wc_canGoBack]> tab))]>
       (tabConfigs st)) ;;;
  st <- get ;;
  ret (tabConfigs st).

Definition switchTab (viewId : jsid) : M unit := setCurrentView viewId.

(** [newTab(url, appendTo, references)]; [id] is the id the host gives to the
    new view's web contents. [references] only reaches the host's constructor.
    The view returned is the object as it is stored in [views] at the end. *)
Definition newTab (id : Z) (url : option string) (appendTo : jsid) : M BrowserView :=
  let view := new_BrowserView id in
  effect (SetWindowOpenHandler (view_id view)) ;;;
  st <- get ;;
  (if truthy appendTo then
     let prevIndex := indexOf (tabs st) appendTo in
     modify (set_tabs (splice_insert (tabs st) (prevIndex + 1) (view_id view)))
   else
     modify (set_tabs (tabs st ++ [view_id view]))) ;;;
  modify (λ st, set_views (<[view_id view := Some view]> (views st)) st) ;;;
  st <- get ;;
  let lastView := currentView st in
  setCurrentView (view_id view) ;;;
  effect (SetAutoResize (view_id view)) ;;;
  loadURL (or_string url (blankPage (options st))) ;;;
  setTabConfig (view_id view) {[ "title" := VStr (blankTitle (options st)) ]} ;;;
  effect (EmitNewTab (view_id view) url (view_id <$> lastView)) ;;;
  st <- get ;;
  ret (default view (views_at st (view_id view))).

(** ** [setChannel]: the IPC commands *)

(** [action.call(webContents)] passes no argument and sits in no [try]: what
    the function throws leaves [webContentsAct], and the synchronous [act]
    entry with it. *)
Definition webContentsAct (actionName : string) : M unit :=
  st <- get ;;
  match currentWebContents st with
  | Some wc =>
      if wc_is_function host actionName then
        if String.eqb actionName "reload" && String.eqb (wc_getURL wc) ""
        then ret tt
        else
          effect (WcCall (JNum (wc_id wc)) actionName) ;;;
          match wc_call_error host actionName wc with
          | Some err => throw err
          | None =>
              modify (λ st, set_views
                (<[currentViewId st :=
                     Some (mkBrowserView (wc_invoke actionName wc))]>
                   (views st)) st)
          end
      else effect (LogWarn actionName)
  | None => effect (LogWarn actionName)
  end.

Definition close_tab (id : jsid) : M unit :=
  st <- get ;;
  when (strict_eq id (currentViewId st))
    (let removeIndex := indexOf (tabs st) id in
     let nextIndex :=
       if (removeIndex =? Z.of_nat (length (tabs st)) - 1)%Z
       then (removeIndex - 1)%Z else (removeIndex + 1)%Z in
     setCurrentView (array_get (tabs st) nextIndex)) ;;;
  modify (λ st, set_tabs (filter_ne id (tabs st)) st) ;;;
  st <- get ;;
  set_tabConfigs (<[id := None]> (tabConfigs st)) ;;;
  destroyView id ;;;
  effect (EmitCloseTab id).

Definition control_ready (id : Z) (e : IpcMainEvent) : M unit :=
  modify (set_ipc (Some e)) ;;;
  st <- get ;;
  newTab id (Some (or_string (Some (startPage (options st))) "")) JUndefined ;;;
  effect WinShow ;;;
  effect EmitControlReady.

Definition new_tab (id : Z) (url : option string) : M unit :=
  newTab id url JNull ;;; ret tt.

Definition switch_tab (id : jsid) : M unit := switchTab id.

Definition url_change (url : jsval) : M unit :=
  st <- get ;;
  setTabConfig (currentViewId st) {[ "url" := url ]} ;;; ret tt.

(** A message on one of the six channels. *)
Inductive Command : Type :=
  | Act (actName : string)
  | CloseTab (id : jsid)
  | ControlReady
  | NewTab (url : option string)
  | SwitchTab (id : jsid)
  | UrlChange (url : jsval).

(** The entry of [channels] for the command; [fresh] is the id the host would
    give to a view created while handling it. *)
Definition channels (fresh : Z) (e : IpcMainEvent) (c : Command) : M unit :=
  match c with
  | Act actName => webContentsAct actName
  | CloseTab id => close_tab id
  | ControlReady => control_ready fresh e
  | NewTab url => new_tab fresh url
  | SwitchTab id => switch_tab id
  | UrlChange url => url_change url
  end.

(** The listener registered with [ipcMain.on]: the wrapper around each entry. *)
Definition ipcMain_listener (fresh : Z) (e : IpcMainEvent) (c : Command) : M unit :=
  st <- get ;;
  if negb (win_isDestroyed (win st)) && (sender e =? win_webContents (win st))%Z
  then channels fresh e c
  else ret tt.

End Methods.

(** A host in which the functions of a web contents are the methods that this
    repository itself calls on one ([destroy] and [isDestroyed] in
    [destroyView], [reload] in [reactToIpcIdData], [stop], [goBack] and
    [goForward] through [sendAct], [focus], [getURL], ...), and in which
    [addBrowserView] checks its argument. Called with no argument, [on]
    throws for want of a listener and [send] for want of a channel; the
    others return. *)
Definition electron : Host :=
  mkHost
    (λ name, bool_decide (name ∈
       ["reload"; "stop"; "goBack"; "goForward"; "destroy"; "isDestroyed";
        "focus"; "getURL"; "canGoBack"; "canGoForward"; "loadURL"; "on";
        "send"; "setWindowOpenHandler"]))
    true
    (λ name _,
       if String.eqb name "on"
       then Some "TypeError: The listener argument must be of type function"
       else if String.eqb name "send"
       then Some "TypeError: Missing required channel argument"
       else None).

(** The same host with a lenient [addBrowserView]. *)
Definition electron_lenient : Host :=
  mkHost (wc_is_function electron) false (wc_call_error electron).

(** ** Sample states *)

Definition opts0 : Options := mkOptions "" "New Tab" 40 "http://www.baidu.com".
Definition win0 : BrowserWindow := mkBrowserWindow false 1 800 600.

(** The control panel reported ready: one tab, id 1, active. *)
Definition one_tab : TabbedWindow :=
  state_of (control_ready electron 1 (mkIpcMainEvent 1) (constructor opts0 win0)).

(** A second tab opened next to the first: order [1; 2], 2 active. *)
Definition two_tabs : TabbedWindow :=
  state_of (newTab electron 2 (Some "https://x.test") (JNum 1) one_tab).

(** A third tab appended: order [1; 2; 3], 3 active. *)
Definition three_tabs : TabbedWindow :=
  state_of (newTab electron 3 None JNull two_tabs).

(** The same three tabs with the middle one selected. *)
Definition three_tabs_mid : TabbedWindow :=
  state_of (switchTab electron (JNum 2) three_tabs).

(** ** Closed forms and predicates used in the statements *)

(** The view stored under [x] is an object, carries [x] as its id, and its web
    contents is not destroyed. *)
Definition live (st : TabbedWindow) (x : jsid) : Prop :=
  ∃ v, views_at st x = Some v ∧ view_id v = x ∧
       wc_isDestroyed (webContents v) = false.

(** What [setContentBounds] does in [st]. *)
Definition bounds_trace (st : TabbedWindow) : list Effect :=
  match currentView st with
  | Some v =>
      [SetBounds (view_id v)
        (mkBounds (win_contentHeight (win st) - controlHeight (options st))
                  (win_contentWidth (win st)) 0 (0 + controlHeight (options st)))]
  | None => []
  end.

(** [if (this.ipc) this.ipc.reply(...)]. *)
Definition reply_if (st : TabbedWindow) (e : Effect) : list Effect :=
  if bool_decide (is_Some (ipc st)) then [e] else [].

(** [if (this.currentView) this.win.removeBrowserView(this.currentView)]. *)
Definition remove_trace (st : TabbedWindow) : list Effect :=
  match currentView st with
  | Some v => [RemoveBrowserView (view_id v)]
  | None => []
  end.

(** [if (!view.webContents.isDestroyed()) view.webContents.destroy()]. *)
Definition destroy_trace (v : BrowserView) : list Effect :=
  if wc_isDestroyed (webContents v) then [] else [WcDestroy (view_id v)].

(** [webContents && webContents.canGoBack()] and its sibling. *)
Definition live_flag (st : TabbedWindow) (id : jsid) (f : WebContents → bool) : jsval :=
  match webContents <$> views_at st id with
  | Some w => VBool (f w)
  | None => VUndefined
  end.

(** The [Tab] that [setTabConfig(id, kv)] stores. *)
Definition merge_tab (st : TabbedWindow) (id : jsid) (kv : Tab) : Tab :=
  kv ∪ <["canGoForward" := live_flag st id wc_canGoForward]>
         (<["canGoBack" := live_flag st id wc_canGoBack]>
            (default ∅ (mjoin (tabConfigs st !! id)))).

(** The object after [loadURL] marked the current view's web contents. *)
Definition mark_current (cv : BrowserView) (st : TabbedWindow) : TabbedWindow :=
  set_views
    (<[currentViewId st := Some (mkBrowserView (wc_set_marks (webContents cv)))]>
       (views st)) st.

(** [this.tabs] after [newTab] put the new id in. *)
Definition newTab_tabs (st : TabbedWindow) (id : Z) (appendTo : jsid) : list jsid :=
  if truthy appendTo
  then splice_insert (tabs st) (indexOf (tabs st) appendTo + 1) (JNum id)
  else tabs st ++ [JNum id].

(** After the id is in [tabs] and the view in [views]. *)
Definition newTab_registered (st : TabbedWindow) (id : Z) (appendTo : jsid) : TabbedWindow :=
  set_views (<[JNum id := Some (new_BrowserView id)]> (views st))
    (set_tabs (newTab_tabs st id appendTo) st).

(** After [setCurrentView(view.id)]. *)
Definition newTab_selected (st : TabbedWindow) (id : Z) (appendTo : jsid) : TabbedWindow :=
  if truthy (JNum id)
  then set_defCurrentViewId (JNum id) (newTab_registered st id appendTo)
  else newTab_registered st id appendTo.

(** After [loadURL(url || this.options.blankPage)]. *)
Definition newTab_loaded (st : TabbedWindow) (id : Z) (url : option string)
    (appendTo : jsid) : TabbedWindow :=
  state_of (loadURL (or_string url (blankPage (options st)))
              (newTab_selected st id appendTo)).

(** The metadata mapping after [setTabConfig(view.id, { title })]. *)
Definition newTab_confs (st : TabbedWindow) (id : Z) (url : option string)
    (appendTo : jsid) : Tabs :=
  <[JNum id := Some (merge_tab (newTab_loaded st id url appendTo) (JNum id)
                       {[ "title" := VStr (blankTitle (options st)) ]})]>
    (tabConfigs st).

(** The object when [newTab] returns. *)
Definition newTab_final (st : TabbedWindow) (id : Z) (url : option string)
    (appendTo : jsid) : TabbedWindow :=
  set_defTabConfigs (newTab_confs st id url appendTo)
    (newTab_loaded st id url appendTo).

(** The rest of the [close-tab] handler, after the active selection moved. *)
Definition close_state (id : jsid) (s : TabbedWindow) : TabbedWindow :=
  let s2 := set_defTabConfigs (<[id := None]> (tabConfigs s))
              (set_tabs (filter_ne id (tabs s)) s) in
  match views_at s id with
  | Some _ => set_views (<[id := None]> (views s)) s2
  | None => s2
  end.

(** The effects of that rest. *)
Definition close_trace (id : jsid) (s : TabbedWindow) : list Effect :=
  reply_if s (ReplyTabsUpdate (<[id := None]> (tabConfigs s)) (filter_ne id (tabs s)))
  ++ match views_at s id with Some v => destroy_trace v | None => [] end
  ++ [EmitCloseTab id].

(** [this.tabs[nextIndex]] as the handler computes it. *)
Definition close_next (id : jsid) (st : TabbedWindow) : jsid :=
  let removeIndex := indexOf (tabs st) id in
  array_get (tabs st)
    (if (removeIndex =? Z.of_nat (length (tabs st)) - 1)%Z
     then (removeIndex - 1)%Z else (removeIndex + 1)%Z).

(** The effects by which the active selection changes hands: detach, attach,
    layout, the [active-update] reply, the [fromMain] message, focus. *)
Definition switches_view (e : Effect) : bool :=
  match e with
  | RemoveBrowserView _ | AddBrowserView _ | SetBounds _ _
  | ReplyActiveUpdate _ | SendFromMain _ | WcFocus _ => true
  | _ => false
  end.

(** [openTab] with the id the host hands out for the new surface, and
    [closeTab]. *)
Inductive RegistryOp : Type :=
  | OpenTab (id : Z) (url : option string) (insertAfterId : jsid)
  | CloseTabOp (id : jsid).

(** The object after one call; an exception leaves it as it was when raised. *)
Definition apply_op (host : Host) (st : TabbedWindow) (op : RegistryOp) : TabbedWindow :=
  match op with
  | OpenTab id url insertAfterId => state_of (newTab host id url insertAfterId st)
  | CloseTabOp id => state_of (close_tab host id st)
  end.

Definition run_ops (host : Host) (ops : list RegistryOp) (st : TabbedWindow) : TabbedWindow :=
  foldl (apply_op host) st ops.

(** The ids the host handed out during the sequence. *)
Definition opened_ids (ops : list RegistryOp) : list Z :=
  omap (λ op, match op with OpenTab id _ _ => Some id | CloseTabOp _ => None end) ops.

(** The ids opened and not closed since, by the history alone. *)
Definition still_open (ops : list RegistryOp) : list jsid :=
  foldl (λ acc op,
           match op with
           | OpenTab id _ _ => JNum id :: acc
           | CloseTabOp x => filter_ne x acc
           end) [] ops.

(** The invariant: no duplicates in the order; the order holds the ids in
    [open]; it holds the ids with a [Tab] entry; each of its ids has a live
    view and was handed out by the host (is in [used]). *)
Definition registry_ok (used : list Z) (open : list jsid) (st : TabbedWindow) : Prop :=
  NoDup (tabs st) ∧
  (∀ x, x ∈ tabs st ↔ x ∈ open) ∧
  (∀ x, x ∈ tabs st ↔ ∃ t, tabConfigs st !! x = Some (Some t)) ∧
  (∀ x, x ∈ tabs st → live st x ∧ ∃ n, x = JNum n ∧ n ∈ used).

(** Open 1, open 2 next to 1, open 3 next to 1, close 2. *)
Definition sample_ops : list RegistryOp :=
  [OpenTab 1 (Some "https://x.test") JUndefined;
   OpenTab 2 None (JNum 1);
   OpenTab 3 None (JNum 1);
   CloseTabOp (JNum 2)].

(** ** Listeners that the host calls later *)

(** The page events that [loadURL] listens to on a web contents. *)
Inductive PageEvent : Type :=
  | DidStartLoading
  | DidStartNavigation (href : string) (isInPlace isMainFrame : bool)
  | WillRedirect (href : string)
  | PageTitleUpdated (title : string)
  | PageFaviconUpdated (favicons : list string)
  | DidStopLoading
  | DomReady.

(** The payload of the [url-updated] event: the view and the new address. *)
Record UrlUpdated : Type := mkUrlUpdated {
  uu_view : jsid;
  uu_href : string
}.

(** What [new URL(newUrl)] gives: an exception, or a URL with its [host]. *)
Inductive UrlParse : Type :=
  | InvalidUrl
  | UrlHost (h : string).

(** What the [new-window] listener leaves on its event: whether the default
    was prevented, and the [newGuest] window, made from the page's options as
    they are or with [show: false]. *)
Inductive NewGuest : Type :=
  | GuestNone
  | GuestWindow (hidden : bool).

Record NewWindowEvent : Type := mkNewWindowEvent {
  defaultPrevented : bool;
  newGuest : NewGuest
}.

(** The effects of the window's [closed] listener: those of the class, and
    the [closed] event. *)
Inductive WinEffect : Type :=
  | OfView (e : Effect)
  | EmitClosed.

(** A function that can be registered with [ipcMain], by identity: the entry
    of [channels] for a name, or the wrapper that [setChannel] builds around
    it, of the tabbed window [owner]. *)
Inductive ListenerRef : Type :=
  | ChannelEntry (owner : Z) (name : string)
  | ChannelWrapper (owner : Z) (name : string).

#[global] Instance ListenerRef_eq_dec : EqDecision ListenerRef.
Proof. solve_decision. Defined.

(** The listeners of [ipcMain], oldest first: channel and function. *)
Abbreviation IpcMain := (list (string * ListenerRef)).

(** [ipcMain.on(name, f)]. *)
Definition ipcMain_on (name : string) (f : ListenerRef) (reg : IpcMain) : IpcMain :=
  reg ++ [(name, f)].

Fixpoint remove_first (x : string * ListenerRef) (l : IpcMain) : IpcMain :=
  match l with
  | [] => []
  | y :: rest => if decide (x = y) then rest else y :: remove_first x rest
  end.

(** [ipcMain.removeListener(name, f)]: the most recently added registration
    of that very function on the channel goes, if there is one. *)
Definition ipcMain_removeListener (name : string) (f : ListenerRef) (reg : IpcMain) : IpcMain :=
  reverse (remove_first (name, f) (reverse reg)).

(** The channel names, in the order of [Object.entries]. *)
Definition channel_names : list string :=
  ["act"; "close-tab"; "control-ready"; "new-tab"; "switch-tab"; "url-change"].

(** [favicons[0]]. *)
Definition first_favicon (favicons : list string) : jsval :=
  match favicons with
  | f :: _ => VStr f
  | [] => VUndefined
  end.

(** [ids.forEach((id) => this.destroyView(id))]. *)
Fixpoint forEach_destroyView (ids : list jsid) : M unit :=
  match ids with
  | [] => ret tt
  | id :: rest => destroyView id ;;; forEach_destroyView rest
  end.

Section Listeners.

Variable host : Host.

(** [new URL(s)] of the host. *)
Variable new_URL : string → UrlParse.

(** The listeners that [loadURL] puts on the web contents of the view [id];
    the value is the [url-updated] event emitted, if any. *)
Definition page_listener (id : jsid) (ev : PageEvent) : M (option UrlUpdated) :=
  match ev with
  | DidStartLoading =>
      setTabConfig id {[ "isLoading" := VBool true ]} ;;; ret None
  | DidStartNavigation href _ isMainFrame =>
      if isMainFrame then
        setTabConfig id (<["url" := VStr href]> {[ "href" := VStr href ]}) ;;;
        ret (Some (mkUrlUpdated id href))
      else ret None
  | WillRedirect href =>
      setTabConfig id (<["url" := VStr href]> {[ "href" := VStr href ]}) ;;;
      ret (Some (mkUrlUpdated id href))
  | PageTitleUpdated title =>
      setTabConfig id {[ "title" := VStr title ]} ;;; ret None
  | PageFaviconUpdated favicons =>
      setTabConfig id {[ "favicon" := first_favicon favicons ]} ;;; ret None
  | DidStopLoading =>
      setTabConfig id {[ "isLoading" := VBool false ]} ;;; ret None
  | DomReady =>
      effect (WcFocus id) ;;; ret None
  end.

(** The handler given to [setWindowOpenHandler] in [newTab]; [fresh] is the id
    the host gives to the view it creates. *)
Definition windowOpenHandler (fresh : Z) (url : string) : M string :=
  newTab host fresh (Some url) JUndefined ;;; ret "deny".

(** The default [new-window] listener of the view [id]. *)
Definition onNewWindow (fresh : Z) (id : jsid) (newUrl disposition : string)
    : M NewWindowEvent :=
  match new_URL newUrl with
  | InvalidUrl => throw "TypeError: Invalid URL"
  | UrlHost h =>
      if String.eqb h "" then ret (mkNewWindowEvent false GuestNone)
      else if String.eqb disposition "new-window"
      then ret (mkNewWindowEvent true (GuestWindow false))
      else if String.eqb disposition "foreground-tab"
      then newTab host fresh (Some newUrl) id ;;;
           ret (mkNewWindowEvent true (GuestWindow true))
      else newTab host fresh (Some newUrl) id ;;;
           ret (mkNewWindowEvent true GuestNone)
  end.

End Listeners.

(** The end of [setChannel]: the wrapper of each entry of [channels] is
    registered on its channel. *)
Definition setChannel_listen (owner : Z) (reg : IpcMain) : IpcMain :=
  foldl (λ r name, ipcMain_on name (ChannelWrapper owner name) r) reg channel_names.

(** The window's [closed] listener: [removeListener] is called with the
    entries of [channels] themselves, then the views are destroyed, then
    [closed] is emitted. *)
Definition on_closed (owner : Z) (reg : IpcMain) (st : TabbedWindow)
    : IpcMain * TabbedWindow * list WinEffect :=
  let r := forEach_destroyView (tabs st) st in
  (foldl (λ g name, ipcMain_removeListener name (ChannelEntry owner name) g)
     reg channel_names,
   state_of r,
   (OfView <$> trace_of r) ++ [EmitClosed]).

(** ** The addon's tab counter *)

(** [initialiseCustomisedWinListener]: the addon's listeners on the tabbed
    window's events, [new-tab] counting up and [close-tab] counting down. *)
Definition tabItemCount_on (count : Z) (e : Effect) : Z :=
  match e with
  | EmitNewTab _ _ _ => (count + 1)%Z
  | EmitCloseTab _ => (count - 1)%Z
  | _ => count
  end.

(** [cfg.tabItemCount] after the events of a trace. [create] starts it at 0. *)
Definition tabItemCount_after (count : Z) (tr : list Effect) : Z :=
  foldl tabItemCount_on count tr.

(** The effects of a sequence of opens and closes, in order. *)
Definition apply_op_trace (host : Host) (st : TabbedWindow) (op : RegistryOp) : list Effect :=
  match op with
  | OpenTab id url insertAfterId => trace_of (newTab host id url insertAfterId st)
  | CloseTabOp id => trace_of (close_tab host id st)
  end.

Fixpoint ops_trace (host : Host) (ops : list RegistryOp) (st : TabbedWindow) : list Effect :=
  match ops with
  | [] => []
  | op :: rest => apply_op_trace host st op ++ ops_trace host rest (apply_op host st op)
  end.

(** Every close in the sequence names an id that is open at that point;
    [open] holds the ids open before the sequence. *)
Fixpoint closes_open (open : list jsid) (ops : list RegistryOp) : bool :=
  match ops with
  | [] => true
  | OpenTab id _ _ :: rest => closes_open (JNum id :: open) rest
  | CloseTabOp x :: rest =>
      bool_decide (x ∈ open) && closes_open (filter_ne x open) rest
  end.

(** What [newTab] does between registering the view and loading: the switch
    to the new view, when its id is truthy. *)
Definition newTab_select_trace (st : TabbedWindow) (id : Z) (appendTo : jsid) : list Effect :=
  if truthy (JNum id) then
    remove_trace (newTab_registered st id appendTo)
    ++ [AddBrowserView (Some (JNum id))]
    ++ bounds_trace (newTab_selected st id appendTo)
    ++ reply_if st (ReplyActiveUpdate (JNum id))
    ++ [SendFromMain (JNum id); WcFocus (JNum id)]
  else [].

(** The effects of [newTab], in order. *)
Definition newTab_trace (st : TabbedWindow) (id : Z) (url : option string)
    (appendTo : jsid) : list Effect :=
  [SetWindowOpenHandler (JNum id)]
  ++ newTab_select_trace st id appendTo
  ++ [SetAutoResize (JNum id)]
  ++ trace_of (loadURL (or_string url (blankPage (options st)))
                 (newTab_selected st id appendTo))
  ++ reply_if st (ReplyTabsUpdate (newTab_confs st id url appendTo)
                    (newTab_tabs st id appendTo))
  ++ [EmitNewTab (JNum id) url
        (view_id <$> currentView (newTab_registered st id appendTo))].

(** The states reached by opens and closes keep, beside [registry_ok]: every
    id in the order is truthy; the active id is in the order unless the order
    is empty; a view object is held only for ids in the order; an id handed
    out and no longer in the order has a [null] entry. *)
Definition selection_ok (used : list Z) (st : TabbedWindow) : Prop :=
  (∀ x, x ∈ tabs st → truthy x = true) ∧
  (tabs st = [] ∨ currentViewId st ∈ tabs st) ∧
  (∀ x, is_Some (views_at st x) → x ∈ tabs st) ∧
  (∀ n, n ∈ used → JNum n ∉ tabs st → tabConfigs st !! JNum n = Some None).

(** An effect that is neither the [new-tab] nor the [close-tab] event. *)
Definition emits_no_tab_event (e : Effect) : Prop :=
  match e with
  | EmitNewTab _ _ _ | EmitCloseTab _ => False
  | _ => True
  end.

(** The effects by which a page is loaded into a web contents: registering
    the listeners, and [webContents.loadURL]. *)
Definition loads_page (e : Effect) : bool :=
  match e with
  | WcOnEvents _ | WcLoadURL _ _ => true
  | _ => false
  end.

(** * Properties *)

(** ** Arrays *)

Lemma strict_eq_true a b : strict_eq a b = true ↔ a = b.
Proof. unfold strict_eq. apply bool_decide_eq_true. Qed.

Lemma strict_eq_false a b : strict_eq a b = false ↔ a ≠ b.
Proof. unfold strict_eq. apply bool_decide_eq_false. Qed.

Lemma strict_eq_refl a : strict_eq a a = true.
Proof. by apply strict_eq_true. Qed.

Lemma indexOf_range arr x : (-1 ≤ indexOf arr x < Z.of_nat (length arr))%Z.
Proof.
  induction arr as [|y rest IH]; simpl; [lia|].
  destruct (strict_eq y x); [lia|].
  destruct (Z.ltb_spec (indexOf rest x) 0); lia.
Qed.

Lemma indexOf_absent arr x : x ∉ arr → indexOf arr x = (-1)%Z.
Proof.
  induction arr as [|y rest IH]; simpl; intros Hx; [done|].
  apply not_elem_of_cons in Hx as [Hne Hx].
  destruct (strict_eq y x) eqn:E.
  - apply strict_eq_true in E. congruence.
  - by rewrite IH.
Qed.

Lemma indexOf_middle l1 x l2 :
  x ∉ l1 → indexOf (l1 ++ x :: l2) x = Z.of_nat (length l1).
Proof.
  induction l1 as [|y l1 IH]; simpl; intros Hx.
  - by rewrite strict_eq_refl.
  - apply not_elem_of_cons in Hx as [Hne Hx].
    destruct (strict_eq y x) eqn:E.
    + apply strict_eq_true in E. congruence.
    + rewrite IH by done.
      destruct (Z.ltb_spec (Z.of_nat (length l1)) 0); lia.
Qed.

Lemma array_get_middle l1 x l2 :
  array_get (l1 ++ x :: l2) (Z.of_nat (length l1)) = x.
Proof.
  unfold array_get.
  destruct (Z.ltb_spec (Z.of_nat (length l1)) 0); [lia|].
  rewrite Nat2Z.id, list_lookup_middle; done.
Qed.

Lemma array_get_elem arr i :
  array_get arr i = JUndefined ∨ array_get arr i ∈ arr.
Proof.
  unfold array_get. destruct (i <? 0)%Z; [by left|].
  destruct (arr !! Z.to_nat i) as [y|] eqn:E; simpl; [|by left].
  right. by eapply list_elem_of_lookup_2.
Qed.

Lemma elem_of_filter_ne id arr x : x ∈ filter_ne id arr ↔ x ∈ arr ∧ x ≠ id.
Proof.
  unfold filter_ne. rewrite !list_elem_of_In, filter_In.
  rewrite negb_true_iff, strict_eq_false. done.
Qed.

Lemma filter_ne_absent id arr : id ∉ arr → filter_ne id arr = arr.
Proof.
  induction arr as [|y rest IH]; simpl; intros Hx; [done|].
  apply not_elem_of_cons in Hx as [Hne Hx].
  destruct (strict_eq y id) eqn:E; simpl.
  - apply strict_eq_true in E. congruence.
  - f_equal. by apply IH.
Qed.

Lemma filter_ne_app id l1 l2 :
  filter_ne id (l1 ++ l2) = filter_ne id l1 ++ filter_ne id l2.
Proof. unfold filter_ne. apply List.filter_app. Qed.

Lemma filter_ne_middle id l1 l2 :
  id ∉ l1 → id ∉ l2 → filter_ne id (l1 ++ id :: l2) = l1 ++ l2.
Proof.
  intros H1 H2. rewrite filter_ne_app. simpl.
  rewrite strict_eq_refl. simpl.
  by rewrite !filter_ne_absent.
Qed.

Lemma NoDup_filter_ne id arr : NoDup arr → NoDup (filter_ne id arr).
Proof.
  induction 1 as [|y rest Hy Hnd IH]; simpl; [constructor|].
  destruct (negb (strict_eq y id)); [|done].
  constructor; [|done]. rewrite elem_of_filter_ne. tauto.
Qed.

Lemma splice_insert_after l1 a l2 x :
  splice_insert (l1 ++ a :: l2) (Z.of_nat (length l1) + 1) x = l1 ++ a :: x :: l2.
Proof.
  unfold splice_insert.
  destruct (Z.ltb_spec (Z.of_nat (length l1) + 1) 0); [lia|].
  rewrite length_app. simpl.
  replace (Z.to_nat _) with (length (l1 ++ [a])).
  2:{ rewrite length_app. simpl. lia. }
  replace (l1 ++ a :: l2) with ((l1 ++ [a]) ++ l2) by (by rewrite <- app_assoc).
  rewrite take_app_length, drop_app_length. by rewrite <- app_assoc.
Qed.

Lemma splice_insert_front arr x : splice_insert arr 0 x = x :: arr.
Proof.
  unfold splice_insert. simpl.
  replace (Z.to_nat _) with 0%nat by lia. done.
Qed.

Lemma elem_of_splice_insert arr start x y :
  y ∈ splice_insert arr start x ↔ y = x ∨ y ∈ arr.
Proof.
  unfold splice_insert. set (n := Z.to_nat _).
  rewrite elem_of_app, elem_of_cons.
  assert (y ∈ arr ↔ y ∈ take n arr ∨ y ∈ drop n arr) as ->; [|tauto].
  by rewrite <- elem_of_app, take_drop.
Qed.

Lemma NoDup_splice_insert arr start x :
  x ∉ arr → NoDup arr → NoDup (splice_insert arr start x).
Proof.
  unfold splice_insert. set (n := Z.to_nat _). intros Hx Hnd.
  rewrite <- (take_drop n arr) in Hx, Hnd.
  apply NoDup_app in Hnd as (H1 & H2 & H3).
  rewrite elem_of_app in Hx.
  apply NoDup_app. split_and!; [done| |].
  - intros y Hy. rewrite elem_of_cons. intros [->|Hy2]; [tauto|].
    by apply (H2 y).
  - constructor; [tauto|done].
Qed.

(** ** What each method returns *)

Section Runs.

Variable host : Host.

Lemma setContentBounds_run st :
  setContentBounds st = (Done tt, st, bounds_trace st).
Proof.
  unfold setContentBounds, bounds_trace, bind, get. simpl.
  destruct (currentView st); reflexivity.
Qed.

Lemma set_currentViewId_run id st :
  set_currentViewId id st =
    (Done tt, set_defCurrentViewId id st,
     bounds_trace (set_defCurrentViewId id st) ++
     reply_if st (ReplyActiveUpdate id)).
Proof.
  unfold set_currentViewId, bind at 1. unfold modify at 1.
  unfold bind at 1. rewrite setContentBounds_run.
  unfold bind, get, when, reply_if. simpl.
  destruct (bool_decide _); simpl; rewrite ?app_nil_r; reflexivity.
Qed.

Lemma set_tabConfigs_run v st :
  set_tabConfigs v st =
    (Done tt, set_defTabConfigs v st, reply_if st (ReplyTabsUpdate v (tabs st))).
Proof.
  unfold set_tabConfigs, bind, modify, get, when, reply_if. simpl.
  destruct (bool_decide _); reflexivity.
Qed.

Lemma destroyView_run_some id v st :
  views_at st id = Some v →
  destroyView id st =
    (Done tt, set_views (<[id := None]> (views st)) st, destroy_trace v).
Proof.
  intros Hv. unfold destroyView, bind at 1, get at 1. rewrite Hv.
  unfold bind, when, modify, destroy_trace.
  destruct (wc_isDestroyed _); reflexivity.
Qed.

Lemma destroyView_run_none id st :
  views_at st id = None → destroyView id st = (Done tt, st, []).
Proof.
  intros Hv. unfold destroyView, bind, get. rewrite Hv. reflexivity.
Qed.

Lemma currentView_set_current id st :
  truthy id = true →
  currentView (set_defCurrentViewId id st) = views_at st id.
Proof. intros Ht. unfold currentView, currentViewId. simpl. by rewrite Ht. Qed.

Lemma remove_step st :
  (match currentView st with
   | Some v => effect (RemoveBrowserView (view_id v))
   | None => ret tt
   end) st = (Done tt, st, remove_trace st).
Proof. unfold remove_trace. destruct (currentView st); reflexivity. Qed.

Lemma setCurrentView_run_falsy id st :
  truthy id = false → setCurrentView host id st = (Done tt, st, []).
Proof. intros Ht. unfold setCurrentView. by rewrite Ht. Qed.

Lemma setCurrentView_run_view id v st :
  truthy id = true → views_at st id = Some v →
  setCurrentView host id st =
    (Done tt, set_defCurrentViewId id st,
     remove_trace st ++ [AddBrowserView (Some (view_id v))] ++
     bounds_trace (set_defCurrentViewId id st) ++
     reply_if st (ReplyActiveUpdate id) ++
     [SendFromMain id; WcFocus (view_id v)]).
Proof.
  intros Ht Hv. unfold setCurrentView. rewrite Ht. simpl.
  unfold bind at 1, get at 1. unfold bind at 1.
  rewrite remove_step, Hv. unfold bind at 1. unfold effect at 1.
  unfold bind at 1. rewrite set_currentViewId_run.
  unfold bind, effect, get, currentWebContents.
  rewrite currentView_set_current by done. rewrite Hv. simpl.
  unfold view_id. rewrite <- !app_assoc. reflexivity.
Qed.

Lemma setCurrentView_run_missing_strict id st :
  truthy id = true → views_at st id = None →
  addBrowserView_checks host = true →
  ∃ err, setCurrentView host id st = (Thrown err, st, remove_trace st).
Proof.
  intros Ht Hv Hc. unfold setCurrentView. rewrite Ht. simpl.
  unfold bind at 1, get at 1. unfold bind at 1.
  rewrite remove_step, Hv, Hc. unfold bind, throw. simpl.
  rewrite app_nil_r. eauto.
Qed.

Lemma setCurrentView_run_missing_lenient id st :
  truthy id = true → views_at st id = None →
  addBrowserView_checks host = false →
  ∃ err, setCurrentView host id st =
    (Thrown err, set_defCurrentViewId id st,
     remove_trace st ++ [AddBrowserView None] ++
     reply_if st (ReplyActiveUpdate id) ++ [SendFromMain id]).
Proof.
  intros Ht Hv Hc. unfold setCurrentView. rewrite Ht. simpl.
  unfold bind at 1, get at 1. unfold bind at 1.
  rewrite remove_step, Hv, Hc. unfold bind at 1. unfold effect at 1.
  unfold bind at 1. rewrite set_currentViewId_run.
  unfold bind, effect, get, throw, currentWebContents, bounds_trace.
  rewrite currentView_set_current by done. rewrite Hv. simpl. eauto.
Qed.

Lemma setTabConfig_run id kv st :
  setTabConfig id kv st =
    (Done (<[id := Some (merge_tab st id kv)]> (tabConfigs st)),
     set_defTabConfigs (<[id := Some (merge_tab st id kv)]> (tabConfigs st)) st,
     reply_if st
       (ReplyTabsUpdate (<[id := Some (merge_tab st id kv)]> (tabConfigs st))
          (tabs st))).
Proof.
  unfold setTabConfig, bind at 1, get at 1. unfold bind at 1.
  rewrite set_tabConfigs_run. unfold bind, get, ret. simpl.
  rewrite app_nil_r. reflexivity.
Qed.

Lemma done_eta {A} (r : Outcome A * TabbedWindow * list Effect) (a : A) :
  fst (fst r) = Done a → r = (Done a, state_of r, trace_of r).
Proof. destruct r as [[o s] t]. simpl. by intros ->. Qed.

Lemma loadURL_run url st :
  loadURL url st =
    match currentView st with
    | None => (Done tt, st, [])
    | Some cv =>
        if String.eqb url "" then (Done tt, st, [])
        else if wc_marks (webContents cv)
        then (Done tt, st, [WcLoadURL (view_id cv) url])
        else (Done tt, mark_current cv st,
              [WcOnEvents (view_id cv); WcLoadURL (view_id cv) url] ++
              bounds_trace (mark_current cv st))
    end.
Proof.
  unfold loadURL, bind at 1, get at 1.
  destruct (currentView st) as [cv|]; [|reflexivity].
  destruct (String.eqb url ""); [reflexivity|].
  destruct (wc_marks (webContents cv)); [reflexivity|].
  unfold bind, effect, modify. rewrite setContentBounds_run. reflexivity.
Qed.

(** [loadURL] always returns; it touches nothing but the mark on the current
    view's web contents. *)
Lemma loadURL_done url st :
  loadURL url st = (Done tt, state_of (loadURL url st), trace_of (loadURL url st)).
Proof.
  apply done_eta. rewrite loadURL_run.
  destruct (currentView st) as [cv|]; [|reflexivity].
  destruct (String.eqb url ""); [reflexivity|].
  destruct (wc_marks (webContents cv)); reflexivity.
Qed.

Lemma loadURL_frame url st :
  options (state_of (loadURL url st)) = options st ∧
  defCurrentViewId (state_of (loadURL url st)) = defCurrentViewId st ∧
  defTabConfigs (state_of (loadURL url st)) = defTabConfigs st ∧
  ipc (state_of (loadURL url st)) = ipc st ∧
  tabs (state_of (loadURL url st)) = tabs st ∧
  win (state_of (loadURL url st)) = win st ∧
  ∀ x, views_at (state_of (loadURL url st)) x = views_at st x ∨
       ∃ cv, views_at st x = Some cv ∧
             views_at (state_of (loadURL url st)) x =
               Some (mkBrowserView (wc_set_marks (webContents cv))).
Proof.
  rewrite loadURL_run.
  destruct (currentView st) as [cv|] eqn:Hcv; [|repeat split; intros; by left].
  destruct (String.eqb url ""); [repeat split; intros; by left|].
  destruct (wc_marks (webContents cv)); [repeat split; intros; by left|].
  repeat split. intros x. unfold views_at, state_of, mark_current. simpl.
  destruct (decide (x = currentViewId st)) as [->|Hne].
  - right. exists cv. rewrite lookup_insert_eq. split; [|done].
    unfold currentView, views_at in Hcv. by destruct (truthy _).
  - left. by rewrite lookup_insert_ne.
Qed.

Lemma loadURL_live url st x : live st x → live (state_of (loadURL url st)) x.
Proof.
  intros (v & Hv & Hid & Hd).
  destruct (loadURL_frame url st) as (_ & _ & _ & _ & _ & _ & Hviews).
  destruct (Hviews x) as [Heq|(cv & Hcv & Heq)].
  - exists v. by rewrite Heq.
  - exists (mkBrowserView (wc_set_marks (webContents cv))).
    split; [done|]. rewrite Hv in Hcv. by simplify_eq.
Qed.

End Runs.

(** ** What [newTab] and the [close-tab] command return *)

Section Commands.

Variable host : Host.

Lemma runs_bind {A B} (m : M A) (f : A → M B) st a st1 tr1 r st2 tr2 :
  m st = (Done a, st1, tr1) → f a st1 = (r, st2, tr2) →
  bind m f st = (r, st2, tr1 ++ tr2).
Proof. intros H1 H2. unfold bind. by rewrite H1, H2. Qed.

Lemma runs_bind_thrown {A B} (m : M A) (f : A → M B) st err st1 tr1 :
  m st = (Thrown err, st1, tr1) → bind m f st = (Thrown err, st1, tr1).
Proof. intros H1. unfold bind. by rewrite H1. Qed.

(** One statement of a method: run it by [tac], go on with the rest. *)
Ltac run_with tac := eapply runs_bind; [tac|]; cbv beta.
Tactic Notation "run_step" tactic3(tac) := run_with tac.

Lemma run_trace_eq {A} (x : Outcome A * TabbedWindow * list Effect) r s tr tr' :
  x = (r, s, tr) → tr = tr' → x = (r, s, tr').
Proof. by intros -> ->. Qed.

Lemma newTab_run id url appendTo st :
  ∃ tr,
    newTab host id url appendTo st =
      (Done (default (new_BrowserView id)
               (views_at (newTab_final st id url appendTo) (JNum id))),
       newTab_final st id url appendTo, tr) ∧
    last tr = Some (EmitNewTab (JNum id) url
                (view_id <$> currentView (newTab_registered st id appendTo))).
Proof.
  assert (Hins : (if truthy appendTo
                  then modify (set_tabs (splice_insert (tabs st)
                                 (indexOf (tabs st) appendTo + 1)
                                 (view_id (new_BrowserView id))))
                  else modify (set_tabs (tabs st ++ [view_id (new_BrowserView id)]))) st
                 = (Done tt, set_tabs (newTab_tabs st id appendTo) st, [])).
  { unfold newTab_tabs. destruct (truthy appendTo); reflexivity. }
  set (st1 := newTab_registered st id appendTo).
  assert (Hsel : ∃ tr1, setCurrentView host (view_id (new_BrowserView id)) st1
                        = (Done tt, newTab_selected st id appendTo, tr1)).
  { unfold newTab_selected. fold st1.
    change (view_id (new_BrowserView id)) with (JNum id).
    destruct (truthy (JNum id)) eqn:Ht.
    - eexists. apply setCurrentView_run_view; [done|].
      unfold views_at, st1, newTab_registered. simpl.
      by rewrite lookup_insert_eq.
    - eexists. by apply setCurrentView_run_falsy. }
  destruct Hsel as [tr1 Hsel].
  assert (Hconf : tabConfigs (newTab_loaded st id url appendTo) = tabConfigs st).
  { unfold newTab_loaded, tabConfigs.
    destruct (loadURL_frame (or_string url (blankPage (options st)))
                (newTab_selected st id appendTo)) as (_ & _ & -> & _).
    unfold newTab_selected. destruct (truthy (JNum id)); reflexivity. }
  eexists. split.
  - unfold newTab.
    run_step reflexivity.
    run_step reflexivity.
    run_step (exact Hins).
    run_step reflexivity.
    run_step reflexivity.
    run_step (exact Hsel).
    run_step reflexivity.
    run_step (apply loadURL_done).
    run_step (apply setTabConfig_run).
    match goal with
    | |- _ ?S = _ => assert (HS : S = newTab_final st id url appendTo)
    end.
    { unfold newTab_final, newTab_confs. rewrite <- Hconf. reflexivity. }
    rewrite HS.
    run_step reflexivity. run_step reflexivity. reflexivity.
  - change (view_id (new_BrowserView id)) with (JNum id).
    rewrite !app_nil_r, !app_assoc. apply last_snoc.
Qed.

Lemma close_rest_run id s :
  (modify (λ st, set_tabs (filter_ne id (tabs st)) st) ;;;
   st <- get ;;
   set_tabConfigs (<[id := None]> (tabConfigs st)) ;;;
   destroyView id ;;;
   effect (EmitCloseTab id)) s
  = (Done tt, close_state id s, close_trace id s).
Proof.
  unfold close_state, close_trace.
  destruct (views_at s id) as [v|] eqn:Hv.
  - eapply run_trace_eq.
    + run_step reflexivity.
      run_step reflexivity.
      run_step (apply set_tabConfigs_run).
      eapply runs_bind; [by apply (destroyView_run_some _ v)|]. reflexivity.
    + reflexivity.
  - eapply run_trace_eq.
    + run_step reflexivity.
      run_step reflexivity.
      run_step (apply set_tabConfigs_run).
      eapply runs_bind; [by apply destroyView_run_none|]. reflexivity.
    + reflexivity.
Qed.

Lemma close_tab_run_inactive id st :
  id ≠ currentViewId st →
  close_tab host id st = (Done tt, close_state id st, close_trace id st).
Proof.
  intros Hne. unfold close_tab. apply strict_eq_false in Hne.
  eapply run_trace_eq.
  - run_step reflexivity. rewrite Hne.
    eapply runs_bind; [reflexivity|]. apply close_rest_run.
  - reflexivity.
Qed.

Lemma close_tab_run_active st s' tr :
  setCurrentView host (close_next (currentViewId st) st) st = (Done tt, s', tr) →
  close_tab host (currentViewId st) st =
    (Done tt, close_state (currentViewId st) s',
     tr ++ close_trace (currentViewId st) s').
Proof.
  intros Hsel. unfold close_tab.
  eapply run_trace_eq.
  - run_step reflexivity. rewrite strict_eq_refl.
    eapply runs_bind; [exact Hsel|]. apply close_rest_run.
  - reflexivity.
Qed.

Lemma close_tab_run_thrown st s' tr err :
  setCurrentView host (close_next (currentViewId st) st) st = (Thrown err, s', tr) →
  close_tab host (currentViewId st) st = (Thrown err, s', tr).
Proof.
  intros Hsel. unfold close_tab.
  eapply run_trace_eq.
  - run_step reflexivity. rewrite strict_eq_refl.
    by eapply runs_bind_thrown.
  - reflexivity.
Qed.

End Commands.

(** ** Closing a tab *)

Lemma close_trace_quiet id s :
  Forall (λ e, switches_view e = false) (close_trace id s).
Proof.
  unfold close_trace, reply_if, destroy_trace.
  repeat apply Forall_app_2.
  - destruct (bool_decide _); repeat constructor.
  - destruct (views_at s id) as [v|]; [|constructor].
    destruct (wc_isDestroyed _); repeat constructor.
  - repeat constructor.
Qed.

Lemma close_state_views_at id s x :
  views_at (close_state id s) x = if decide (x = id) then None else views_at s x.
Proof.
  unfold close_state, views_at.
  destruct (mjoin (views s !! id)) as [v|] eqn:Hv; simpl.
  - destruct (decide (x = id)) as [->|Hne].
    + by rewrite lookup_insert_eq.
    + by rewrite lookup_insert_ne.
  - destruct (decide (x = id)) as [->|Hne]; done.
Qed.

Lemma close_state_tabs id s : tabs (close_state id s) = filter_ne id (tabs s).
Proof. unfold close_state. by destruct (views_at s id). Qed.

Lemma close_state_current id s :
  currentViewId (close_state id s) = currentViewId s.
Proof. unfold close_state. by destruct (views_at s id). Qed.

Lemma close_state_confs id s :
  tabConfigs (close_state id s) = <[id := None]> (tabConfigs s).
Proof. unfold close_state. by destruct (views_at s id). Qed.

(** C9. Closing a tab that has a surface and is not the active selection: the handler returns; the active selection is
    unchanged and no detach, attach, layout or active-change notification
    happens; exactly the occurrences of that id leave the order sequence, the
    others keeping their order; the id's metadata entry becomes [null]; its
    surface is destroyed (unless it already was) and its entry in [views]
    becomes [null]. *)
Theorem close_tab_inactive_frame (host : Host) (st : TabbedWindow)
    (id : jsid) (v : BrowserView) :
  id ≠ currentViewId st →
  views_at st id = Some v →
  completed (close_tab host id st) = true ∧
  currentViewId (state_of (close_tab host id st)) = currentViewId st ∧
  Forall (λ e, switches_view e = false) (trace_of (close_tab host id st)) ∧
  tabs (state_of (close_tab host id st)) = filter_ne id (tabs st) ∧
  (∀ x, x ∈ tabs (state_of (close_tab host id st)) ↔ x ∈ tabs st ∧ x ≠ id) ∧
  tabConfigs (state_of (close_tab host id st)) = <[id := None]> (tabConfigs st) ∧
  views (state_of (close_tab host id st)) = <[id := None]> (views st) ∧
  (wc_isDestroyed (webContents v) = false →
     WcDestroy (view_id v) ∈ trace_of (close_tab host id st)) ∧
  EmitCloseTab id ∈ trace_of (close_tab host id st).
Proof.
  intros Hne Hv. rewrite close_tab_run_inactive by done.
  unfold completed, state_of, trace_of. simpl.
  split_and!.
  - done.
  - apply close_state_current.
  - apply close_trace_quiet.
  - apply close_state_tabs.
  - intros x. rewrite close_state_tabs. apply elem_of_filter_ne.
  - apply close_state_confs.
  - unfold close_state. by rewrite Hv.
  - intros Hd. unfold close_trace. rewrite Hv. unfold destroy_trace. rewrite Hd.
    rewrite !elem_of_app. right. left. by apply list_elem_of_singleton.
  - unfold close_trace. rewrite !elem_of_app. right. right.
    by apply list_elem_of_singleton.
Qed.

Lemma close_tab_inactive_frame_witness :
  JNum 1 ≠ currentViewId two_tabs ∧
  views_at two_tabs (JNum 1) =
    Some (mkBrowserView (mkWebContents 1 false "" false false true)) ∧
  currentViewId (state_of (close_tab electron (JNum 1) two_tabs)) = JNum 2 ∧
  tabs (state_of (close_tab electron (JNum 1) two_tabs)) = [JNum 2].
Proof.
  assert (H1 : JNum 1 ≠ currentViewId two_tabs) by (vm_compute; congruence).
  assert (H2 : views_at two_tabs (JNum 1) =
    Some (mkBrowserView (mkWebContents 1 false "" false false true)))
    by (vm_compute; reflexivity).
  destruct (close_tab_inactive_frame electron two_tabs (JNum 1) _ H1 H2)
    as (_ & Hc & _ & Ht & _).
  split_and!; [exact H1|exact H2|rewrite Hc; reflexivity|rewrite Ht; reflexivity].
Defined.

(** The neighbour that the handler selects sits right after the closed id, or
    right before it when the closed id is last. *)
Lemma close_next_after l1 id y l2 st :
  tabs st = l1 ++ id :: y :: l2 → id ∉ l1 → close_next id st = y.
Proof.
  intros Ht Hid. unfold close_next. rewrite Ht, indexOf_middle by done.
  rewrite length_app. simpl.
  destruct (Z.eqb_spec (Z.of_nat (length l1))
              (Z.of_nat (length l1 + S (S (length l2))) - 1)); [lia|].
  replace (l1 ++ id :: y :: l2) with ((l1 ++ [id]) ++ y :: l2)
    by (by rewrite <- app_assoc).
  replace (Z.of_nat (length l1) + 1)%Z with (Z.of_nat (length (l1 ++ [id])))
    by (rewrite length_app; simpl; lia).
  apply array_get_middle.
Qed.

Lemma close_next_before l1 y id st :
  tabs st = (l1 ++ [y]) ++ [id] → id ∉ l1 ++ [y] → close_next id st = y.
Proof.
  intros Ht Hid. unfold close_next. rewrite Ht, indexOf_middle by done.
  rewrite !length_app. simpl.
  destruct (Z.eqb_spec (Z.of_nat (length l1 + 1))
              (Z.of_nat (length l1 + 1 + 1) - 1)); [|lia].
  rewrite <- app_assoc.
  replace (Z.of_nat (length l1 + 1) - 1)%Z with (Z.of_nat (length l1)) by lia.
  apply array_get_middle.
Qed.

Lemma close_next_only id st : tabs st = [id] → close_next id st = JUndefined.
Proof.
  intros Ht. unfold close_next. rewrite Ht. simpl.
  rewrite strict_eq_refl. reflexivity.
Qed.

Lemma close_next_elem id st :
  close_next id st = JUndefined ∨ close_next id st ∈ tabs st.
Proof. unfold close_next. apply array_get_elem. Qed.

(** C1 (as amended). Closing the active tab, in a registry whose order has no
    duplicates and whose ids are non-zero numbers with a surface: the handler
    returns and the id leaves the order; the next active selection is the id
    right after the closed one, or the id right before it when the closed one
    is last. When the closed id is the only one, the order becomes empty, no
    view is current, nothing is detached, attached or notified, and the stored
    active id is not cleared: it still holds the closed id. *)
Theorem close_tab_active_neighbour (host : Host) (st : TabbedWindow)
    (l1 l2 : list jsid) :
  tabs st = l1 ++ currentViewId st :: l2 →
  NoDup (tabs st) →
  (∀ x, x ∈ tabs st → truthy x = true ∧ live st x) →
  completed (close_tab host (currentViewId st) st) = true ∧
  tabs (state_of (close_tab host (currentViewId st) st)) = l1 ++ l2 ∧
  match l2, last l1 with
  | y :: _, _ =>
      currentViewId (state_of (close_tab host (currentViewId st) st)) = y
  | [], Some y =>
      currentViewId (state_of (close_tab host (currentViewId st) st)) = y
  | [], None =>
      currentViewId (state_of (close_tab host (currentViewId st) st))
        = currentViewId st ∧
      currentView (state_of (close_tab host (currentViewId st) st)) = None ∧
      Forall (λ e, switches_view e = false)
        (trace_of (close_tab host (currentViewId st) st))
  end.
Proof.
  intros Ht Hnd Hlive.
  assert (Hsplit : (currentViewId st ∉ l1) ∧ (currentViewId st ∉ l2)).
  { rewrite Ht in Hnd. apply NoDup_app in Hnd as (_ & Hd & Hnd2).
    apply NoDup_cons in Hnd2 as [Hn2 _]. split; [|done].
    intros Hin. apply (Hd _ Hin). by left. }
  destruct Hsplit as [Hn1 Hn2].
  assert (Hneighbour : ∀ y, close_next (currentViewId st) st = y → y ∈ tabs st →
    completed (close_tab host (currentViewId st) st) = true ∧
    tabs (state_of (close_tab host (currentViewId st) st)) = l1 ++ l2 ∧
    currentViewId (state_of (close_tab host (currentViewId st) st)) = y).
  { intros y Hy Hin. destruct (Hlive y Hin) as [Hty (v & Hv & _)].
    erewrite close_tab_run_active
      by (rewrite Hy; by apply (setCurrentView_run_view host y v)).
    unfold completed, state_of. simpl. split_and!; [done| |].
    - rewrite close_state_tabs. simpl. rewrite Ht. by apply filter_ne_middle.
    - by rewrite close_state_current. }
  destruct l2 as [|y l2].
  - destruct (last l1) as [y|] eqn:Hlast.
    + apply last_Some in Hlast as [l1' ->].
      apply Hneighbour.
      * by apply (close_next_before l1').
      * rewrite Ht, !elem_of_app, !list_elem_of_singleton. tauto.
    + apply last_None in Hlast as ->. simpl in Ht.
      erewrite close_tab_run_active
        by (rewrite close_next_only by done; by apply setCurrentView_run_falsy).
      unfold completed, state_of, trace_of. simpl. split_and!; [done| | | |].
      * rewrite close_state_tabs, Ht. simpl.
        by rewrite strict_eq_refl.
      * by rewrite close_state_current.
      * unfold currentView. rewrite close_state_current.
        destruct (truthy (currentViewId st)); [|done].
        rewrite close_state_views_at. by rewrite decide_True.
      * apply close_trace_quiet.
  - apply Hneighbour.
    + by apply (close_next_after l1 _ y l2).
    + rewrite Ht, elem_of_app, !elem_of_cons. tauto.
Qed.

(** C1, where it fails: closing the only tab leaves the order empty and the
    active id still set to the closed id 1, not cleared. *)
Lemma close_only_tab_keeps_active_id :
  tabs one_tab = [JNum 1] ∧
  currentViewId one_tab = JNum 1 ∧
  tabs (state_of (close_tab electron (JNum 1) one_tab)) = [] ∧
  currentViewId (state_of (close_tab electron (JNum 1) one_tab)) = JNum 1 ∧
  currentViewId (state_of (close_tab electron (JNum 1) one_tab)) ≠ JNull ∧
  currentViewId (state_of (close_tab electron (JNum 1) one_tab)) ≠ JUndefined.
Proof. vm_compute. split_and!; congruence. Qed.

Lemma three_tabs_mid_live x :
  x ∈ tabs three_tabs_mid → truthy x = true ∧ live three_tabs_mid x.
Proof.
  change (tabs three_tabs_mid) with [JNum 1; JNum 2; JNum 3].
  rewrite !elem_of_cons, elem_of_nil.
  intros [->|[->|[->|[]]]]; (split; [reflexivity|]);
    (eexists; split_and!; [vm_compute; reflexivity|reflexivity|reflexivity]).
Defined.

Lemma close_tab_active_neighbour_witness :
  tabs three_tabs_mid = [JNum 1] ++ currentViewId three_tabs_mid :: [JNum 3] ∧
  NoDup (tabs three_tabs_mid) ∧
  currentViewId
    (state_of (close_tab electron (currentViewId three_tabs_mid) three_tabs_mid))
  = JNum 3.
Proof.
  assert (H1 : tabs three_tabs_mid
               = [JNum 1] ++ currentViewId three_tabs_mid :: [JNum 3])
    by (vm_compute; reflexivity).
  assert (H2 : NoDup (tabs three_tabs_mid))
    by (apply (bool_decide_unpack _); vm_compute; exact I).
  split_and!; [exact H1|exact H2|].
  exact (proj2 (proj2 (close_tab_active_neighbour electron three_tabs_mid
                         [JNum 1] [JNum 3] H1 H2 three_tabs_mid_live))).
Defined.

(** ** Closing an id that is not in the registry *)

(** C5 (as amended). For an id that is not in the order sequence and has no
    surface, in a registry whose active id is in the order sequence unless the
    order is empty: the handler returns and leaves the order sequence, the
    active selection and the surface mapping unchanged, but it is not a no-op:
    it writes a [null] entry for the id into the metadata mapping, replies
    with a [tabs-update] when the control panel is connected, and emits
    [close-tab] with the id. *)
Theorem close_tab_absent (host : Host) (st : TabbedWindow) (id : jsid) :
  id ∉ tabs st →
  views_at st id = None →
  currentViewId st ∈ tabs st ∨ tabs st = [] →
  completed (close_tab host id st) = true ∧
  tabs (state_of (close_tab host id st)) = tabs st ∧
  currentViewId (state_of (close_tab host id st)) = currentViewId st ∧
  views (state_of (close_tab host id st)) = views st ∧
  tabConfigs (state_of (close_tab host id st)) = <[id := None]> (tabConfigs st) ∧
  trace_of (close_tab host id st) =
    reply_if st (ReplyTabsUpdate (<[id := None]> (tabConfigs st)) (tabs st))
    ++ [EmitCloseTab id].
Proof.
  intros Hin Hv Hcur.
  assert (Hrun : close_tab host id st
                 = (Done tt, close_state id st, close_trace id st)).
  { destruct (decide (id = currentViewId st)) as [->|Hne].
    - destruct Hcur as [Hcur|Hnil]; [done|].
      rewrite (close_tab_run_active host st st []); [reflexivity|].
      apply setCurrentView_run_falsy.
      unfold close_next. rewrite Hnil. reflexivity.
    - by apply close_tab_run_inactive. }
  rewrite Hrun. unfold completed, state_of, trace_of. simpl.
  split_and!.
  - done.
  - rewrite close_state_tabs. by apply filter_ne_absent.
  - apply close_state_current.
  - unfold close_state. by rewrite Hv.
  - apply close_state_confs.
  - unfold close_trace. rewrite Hv, filter_ne_absent by done. reflexivity.
Qed.

Lemma close_tab_absent_witness :
  (JNum 9 ∉ tabs two_tabs) ∧
  views_at two_tabs (JNum 9) = None ∧
  (currentViewId two_tabs ∈ tabs two_tabs ∨ tabs two_tabs = []) ∧
  tabConfigs (state_of (close_tab electron (JNum 9) two_tabs))
    = <[JNum 9 := None]> (tabConfigs two_tabs).
Proof.
  assert (H1 : JNum 9 ∉ tabs two_tabs).
  { change (tabs two_tabs) with [JNum 1; JNum 2].
    rewrite !not_elem_of_cons. split_and!; [congruence..|apply not_elem_of_nil]. }
  assert (H2 : views_at two_tabs (JNum 9) = None) by (vm_compute; reflexivity).
  assert (H3 : currentViewId two_tabs ∈ tabs two_tabs ∨ tabs two_tabs = []).
  { left. change (JNum 2 ∈ [JNum 1; JNum 2]). rewrite !elem_of_cons. tauto. }
  split_and!; [exact H1|exact H2|exact H3|].
  exact (proj1 (proj2 (proj2 (proj2 (proj2
           (close_tab_absent electron two_tabs (JNum 9) H1 H2 H3)))))).
Defined.

(** C5, where it fails: on the fresh registry, closing the unknown id 9 adds a
    [null] entry for it to the metadata mapping and emits [close-tab]. *)
Lemma close_unknown_id_not_noop :
  (JNum 9 ∉ tabs (constructor opts0 win0)) ∧
  tabConfigs (constructor opts0 win0) !! JNum 9 = None ∧
  views (constructor opts0 win0) !! JNum 9 = None ∧
  tabConfigs (state_of (close_tab electron (JNum 9) (constructor opts0 win0)))
    !! JNum 9 = Some None ∧
  tabConfigs (state_of (close_tab electron (JNum 9) (constructor opts0 win0)))
    ≠ tabConfigs (constructor opts0 win0) ∧
  trace_of (close_tab electron (JNum 9) (constructor opts0 win0))
    = [EmitCloseTab (JNum 9)].
Proof.
  split_and!.
  - apply not_elem_of_nil.
  - reflexivity.
  - reflexivity.
  - vm_compute. reflexivity.
  - intros Heq.
    assert (H : tabConfigs (state_of (close_tab electron (JNum 9)
                  (constructor opts0 win0))) !! JNum 9 = None)
      by (rewrite Heq; reflexivity).
    vm_compute in H. discriminate H.
  - vm_compute. reflexivity.
Qed.

(** ** Switching *)

Lemma set_defCurrentViewId_same st :
  set_defCurrentViewId (defCurrentViewId st) st = st.
Proof. by destruct st. Qed.

(** C4 (as amended). [switchTab(id)] is a no-op only for a falsy id ([null],
    [undefined], 0). For the id that is already active and has a live surface, the
    call returns and leaves the object as it was, so repeating it changes
    nothing in the state, but each call performs the whole switch again:
    [removeBrowserView] and [addBrowserView] of that surface, the layout, the
    [active-update] reply when the control panel is connected, the [fromMain]
    message and focus. For a truthy id that has no surface the call is not a
    no-op either: it ends in an exception after detaching the current view. *)
Theorem switchTab_guard (host : Host) (st : TabbedWindow) (id : jsid) :
  (truthy id = false → switchTab host id st = (Done tt, st, [])) ∧
  (∀ v, truthy id = true → id = currentViewId st → views_at st id = Some v →
     wc_isDestroyed (webContents v) = false →
     switchTab host id st =
       (Done tt, st,
        [RemoveBrowserView (view_id v); AddBrowserView (Some (view_id v))]
        ++ bounds_trace st ++ reply_if st (ReplyActiveUpdate id)
        ++ [SendFromMain id; WcFocus (view_id v)]) ∧
     switchTab host id (state_of (switchTab host id st)) = switchTab host id st) ∧
  (truthy id = true → views_at st id = None →
     completed (switchTab host id st) = false ∧
     ∃ tr, trace_of (switchTab host id st) = remove_trace st ++ tr).
Proof.
  unfold switchTab. split_and!.
  - apply setCurrentView_run_falsy.
  - intros v Ht -> Hv _.
    assert (Hrun : setCurrentView host (currentViewId st) st =
       (Done tt, st,
        [RemoveBrowserView (view_id v); AddBrowserView (Some (view_id v))]
        ++ bounds_trace st ++ reply_if st (ReplyActiveUpdate (currentViewId st))
        ++ [SendFromMain (currentViewId st); WcFocus (view_id v)])).
    { rewrite (setCurrentView_run_view host _ v) by done.
      unfold currentViewId in *. rewrite set_defCurrentViewId_same.
      unfold remove_trace, currentView, currentViewId. rewrite Ht, Hv.
      reflexivity. }
    split; [exact Hrun|]. rewrite Hrun. unfold state_of. simpl. exact Hrun.
  - intros Ht Hv. destruct (addBrowserView_checks host) eqn:Hc.
    + destruct (setCurrentView_run_missing_strict host id st Ht Hv Hc)
        as [err ->].
      split; [done|]. exists []. by rewrite app_nil_r.
    + destruct (setCurrentView_run_missing_lenient host id st Ht Hv Hc)
        as [err ->].
      split; [done|]. eexists. reflexivity.
Qed.

Lemma switchTab_guard_witness :
  truthy (JNum 2) = true ∧
  JNum 2 = currentViewId two_tabs ∧
  views_at two_tabs (JNum 2) =
    Some (mkBrowserView (mkWebContents 2 false "" false false true)) ∧
  state_of (switchTab electron (JNum 2) two_tabs) = two_tabs ∧
  switchTab electron (JNum 2) (state_of (switchTab electron (JNum 2) two_tabs))
    = switchTab electron (JNum 2) two_tabs.
Proof.
  assert (H1 : truthy (JNum 2) = true) by reflexivity.
  assert (H2 : JNum 2 = currentViewId two_tabs) by (vm_compute; reflexivity).
  assert (H3 : views_at two_tabs (JNum 2) =
    Some (mkBrowserView (mkWebContents 2 false "" false false true)))
    by (vm_compute; reflexivity).
  destruct (proj1 (proj2 (switchTab_guard electron two_tabs (JNum 2)))
              _ H1 H2 H3 eq_refl) as [Hrun Hagain].
  split_and!; [exact H1|exact H2|exact H3| |exact Hagain].
  rewrite Hrun. reflexivity.
Defined.

(** C4, where it fails: switching to the tab that is already active detaches
    and attaches its view again and notifies; switching to an id that is not in
    the registry detaches the active view and raises, and on a host whose
    [addBrowserView] does not check its argument it also makes the unknown id
    the active one. *)
Lemma switchTab_not_guarded :
  currentViewId two_tabs = JNum 2 ∧
  trace_of (switchTab electron (JNum 2) two_tabs) =
    [RemoveBrowserView (JNum 2); AddBrowserView (Some (JNum 2));
     SetBounds (JNum 2) (mkBounds 560 800 0 40);
     ReplyActiveUpdate (JNum 2); SendFromMain (JNum 2); WcFocus (JNum 2)] ∧
  (JNum 9 ∉ tabs two_tabs) ∧
  views two_tabs !! JNum 9 = None ∧
  trace_of (switchTab electron (JNum 9) two_tabs) = [RemoveBrowserView (JNum 2)] ∧
  completed (switchTab electron (JNum 9) two_tabs) = false ∧
  currentViewId (state_of (switchTab electron_lenient (JNum 9) two_tabs)) = JNum 9.
Proof.
  split_and!; try (vm_compute; reflexivity).
  change (tabs two_tabs) with [JNum 1; JNum 2].
  rewrite !not_elem_of_cons. split_and!; [congruence..|apply not_elem_of_nil].
Qed.

(** ** Opening a tab *)

Lemma newTab_final_tabs st id url appendTo :
  tabs (newTab_final st id url appendTo) = newTab_tabs st id appendTo.
Proof.
  unfold newTab_final, newTab_loaded. simpl.
  destruct (loadURL_frame (or_string url (blankPage (options st)))
              (newTab_selected st id appendTo)) as (_ & _ & _ & _ & -> & _).
  unfold newTab_selected. destruct (truthy (JNum id)); reflexivity.
Qed.

Lemma newTab_final_current st id url appendTo :
  currentViewId (newTab_final st id url appendTo) =
    if truthy (JNum id) then JNum id else currentViewId st.
Proof.
  unfold newTab_final, newTab_loaded, newTab_selected, currentViewId.
  destruct (truthy (JNum id)).
  - cbn [defCurrentViewId set_defTabConfigs].
    by destruct (loadURL_frame (or_string url (blankPage (options st)))
         (set_defCurrentViewId (JNum id) (newTab_registered st id appendTo)))
      as (_ & -> & _).
  - cbn [defCurrentViewId set_defTabConfigs].
    by destruct (loadURL_frame (or_string url (blankPage (options st)))
         (newTab_registered st id appendTo)) as (_ & -> & _).
Qed.

Lemma newTab_final_confs st id url appendTo :
  tabConfigs (newTab_final st id url appendTo) = newTab_confs st id url appendTo.
Proof. reflexivity. Qed.

Lemma newTab_registered_views_at st id appendTo x :
  views_at (newTab_registered st id appendTo) x =
    if decide (x = JNum id) then Some (new_BrowserView id) else views_at st x.
Proof.
  unfold newTab_registered, views_at. simpl.
  destruct (decide (x = JNum id)) as [->|Hne].
  - by rewrite lookup_insert_eq.
  - by rewrite lookup_insert_ne.
Qed.

Lemma newTab_registered_currentView st id appendTo :
  currentViewId st ≠ JNum id →
  currentView (newTab_registered st id appendTo) = currentView st.
Proof.
  intros Hne. unfold currentView.
  change (currentViewId (newTab_registered st id appendTo)) with (currentViewId st).
  destruct (truthy (currentViewId st)); [|done].
  rewrite newTab_registered_views_at. by rewrite decide_False.
Qed.

(** C3 (as amended). [newTab(url, appendTo)] with a non-zero id from the host
    that is not the active id: the call returns; the new id is put right after
    [appendTo] when [appendTo] is truthy and occurs in the order sequence, at
    the end when [appendTo] is falsy (not given), and at the front of the order
    sequence when [appendTo] is truthy but does not occur in it; afterwards the
    new tab is the active selection, and the last effect is the [new-tab] event
    carrying the new view, the url as passed and the view that was active
    before (if any). *)
Theorem newTab_position (host : Host) (st : TabbedWindow) (id : Z)
    (url : option string) (appendTo : jsid) :
  id ≠ 0%Z →
  currentViewId st ≠ JNum id →
  completed (newTab host id url appendTo st) = true ∧
  (∀ l1 l2, truthy appendTo = true → tabs st = l1 ++ appendTo :: l2 →
     appendTo ∉ l1 →
     tabs (state_of (newTab host id url appendTo st))
       = l1 ++ appendTo :: JNum id :: l2) ∧
  (truthy appendTo = false →
     tabs (state_of (newTab host id url appendTo st)) = tabs st ++ [JNum id]) ∧
  (truthy appendTo = true → appendTo ∉ tabs st →
     tabs (state_of (newTab host id url appendTo st)) = JNum id :: tabs st) ∧
  currentViewId (state_of (newTab host id url appendTo st)) = JNum id ∧
  last (trace_of (newTab host id url appendTo st)) =
    Some (EmitNewTab (JNum id) url (view_id <$> currentView st)).
Proof.
  intros Hid Hcur.
  destruct (newTab_run host id url appendTo st) as (tr & -> & Hlast).
  unfold completed, state_of, trace_of. cbn [fst snd].
  rewrite newTab_final_tabs, newTab_final_current.
  rewrite newTab_registered_currentView in Hlast by done.
  unfold newTab_tabs. split_and!.
  - done.
  - intros l1 l2 -> Ht Hl1. rewrite Ht, indexOf_middle by done.
    apply splice_insert_after.
  - by intros ->.
  - intros -> Habs. rewrite indexOf_absent by done. apply splice_insert_front.
  - simpl. by destruct (Z.eqb_spec id 0).
  - exact Hlast.
Qed.

Lemma newTab_position_witness :
  2%Z ≠ 0%Z ∧
  currentViewId one_tab ≠ JNum 2 ∧
  tabs (state_of (newTab electron 2 (Some "https://x.test") (JNum 1) one_tab))
    = [JNum 1; JNum 2] ∧
  currentViewId
    (state_of (newTab electron 2 (Some "https://x.test") (JNum 1) one_tab))
    = JNum 2.
Proof.
  assert (H1 : 2%Z ≠ 0%Z) by lia.
  assert (H2 : currentViewId one_tab ≠ JNum 2) by (vm_compute; congruence).
  destruct (newTab_position electron one_tab 2 (Some "https://x.test") (JNum 1)
              H1 H2) as (_ & Hafter & _ & _ & Hcur & _).
  split_and!; [exact H1|exact H2| |exact Hcur].
  apply (Hafter [] []); [reflexivity|reflexivity|apply not_elem_of_nil].
Defined.

(** C3, where it fails: with [appendTo = 77], which is not in the order
    [1; 2], the new id 3 goes to the front, not to the end. *)
Lemma newTab_unknown_appendTo_goes_first :
  tabs two_tabs = [JNum 1; JNum 2] ∧
  (JNum 77 ∉ tabs two_tabs) ∧
  tabs (state_of (newTab electron 3 None (JNum 77) two_tabs))
    = [JNum 3; JNum 1; JNum 2] ∧
  tabs (state_of (newTab electron 3 None (JNum 77) two_tabs))
    ≠ tabs two_tabs ++ [JNum 3].
Proof.
  split_and!.
  - vm_compute. reflexivity.
  - change (tabs two_tabs) with [JNum 1; JNum 2].
    rewrite !not_elem_of_cons. split_and!; [congruence..|apply not_elem_of_nil].
  - vm_compute. reflexivity.
  - vm_compute. congruence.
Qed.

(** ** Tab metadata *)

Lemma merge_tab_lookup st id (kv : Tab) k :
  merge_tab st id kv !! k =
    match kv !! k with
    | Some v => Some v
    | None =>
        if decide (k = "canGoForward") then Some (live_flag st id wc_canGoForward)
        else if decide (k = "canGoBack") then Some (live_flag st id wc_canGoBack)
        else default ∅ (mjoin (tabConfigs st !! id)) !! k
    end.
Proof.
  unfold merge_tab. destruct (kv !! k) as [v|] eqn:Hk.
  - by apply lookup_union_Some_l.
  - rewrite lookup_union_r by done.
    destruct (decide (k = "canGoForward")) as [->|Hf].
    + by rewrite lookup_insert_eq.
    + rewrite lookup_insert_ne by done.
      destruct (decide (k = "canGoBack")) as [->|Hb].
      * by rewrite lookup_insert_eq.
      * by rewrite lookup_insert_ne.
Qed.

(** C6 (as amended). [setTabConfig(id, kv)] returns and replaces the entry at
    [id] by a merged [Tab]: every field of [kv] with [kv]'s value; [canGoBack]
    and [canGoForward] recomputed from the live surface ([undefined] when the id
    has no surface) unless [kv] itself carries them; every other field as the
    entry had it before. The new mapping is what the call returns and what the
    [tabs-update] reply carries, together with the order, when the control
    panel is connected. When [id] has no entry, or a [null] one, the call is
    not a no-op: it creates the entry from no previous fields. Order, surfaces
    and active selection are untouched. *)
Theorem setTabConfig_merge (st : TabbedWindow) (id : jsid) (kv : Tab) :
  ∃ t : Tab,
    tabConfigs (state_of (setTabConfig id kv st)) = <[id := Some t]> (tabConfigs st) ∧
    tabConfigs (state_of (setTabConfig id kv st)) !! id = Some (Some t) ∧
    fst (fst (setTabConfig id kv st)) = Done (<[id := Some t]> (tabConfigs st)) ∧
    trace_of (setTabConfig id kv st) =
      reply_if st (ReplyTabsUpdate (<[id := Some t]> (tabConfigs st)) (tabs st)) ∧
    (∀ k v, kv !! k = Some v → t !! k = Some v) ∧
    (∀ k, kv !! k = None → k ≠ "canGoBack" → k ≠ "canGoForward" →
       t !! k = default ∅ (mjoin (tabConfigs st !! id)) !! k) ∧
    (kv !! "canGoBack" = None →
       t !! "canGoBack" = Some (live_flag st id wc_canGoBack)) ∧
    (kv !! "canGoForward" = None →
       t !! "canGoForward" = Some (live_flag st id wc_canGoForward)) ∧
    tabs (state_of (setTabConfig id kv st)) = tabs st ∧
    views (state_of (setTabConfig id kv st)) = views st ∧
    currentViewId (state_of (setTabConfig id kv st)) = currentViewId st.
Proof.
  exists (merge_tab st id kv). rewrite setTabConfig_run.
  unfold state_of, trace_of. cbn [fst snd].
  split_and!; try reflexivity.
  - unfold tabConfigs. cbn [defTabConfigs set_defTabConfigs].
    apply lookup_insert_eq.
  - intros k v Hk. by rewrite merge_tab_lookup, Hk.
  - intros k Hk Hb Hf. rewrite merge_tab_lookup, Hk.
    by rewrite !decide_False.
  - intros Hk. rewrite merge_tab_lookup, Hk. by rewrite decide_False, decide_True.
  - intros Hk. rewrite merge_tab_lookup, Hk. by rewrite decide_True.
Qed.

(** C6, where it fails: for the id 5, which has no entry, no surface and no
    place in the order, the call is not a no-op: it creates an entry. *)
Lemma setTabConfig_unknown_id_creates_entry :
  (JNum 5 ∉ tabs two_tabs) ∧
  tabConfigs two_tabs !! JNum 5 = None ∧
  views two_tabs !! JNum 5 = None ∧
  tabConfigs (state_of (setTabConfig (JNum 5) {[ "url" := VStr "u" ]} two_tabs))
    !! JNum 5
    = Some (Some (<["url" := VStr "u"]>
                    (<["canGoBack" := VUndefined]>
                       {[ "canGoForward" := VUndefined ]}))) ∧
  tabConfigs (state_of (setTabConfig (JNum 5) {[ "url" := VStr "u" ]} two_tabs))
    ≠ tabConfigs two_tabs.
Proof.
  split_and!.
  - change (tabs two_tabs) with [JNum 1; JNum 2].
    rewrite !not_elem_of_cons. split_and!; [congruence..|apply not_elem_of_nil].
  - vm_compute. reflexivity.
  - vm_compute. reflexivity.
  - vm_compute. reflexivity.
  - intros Heq.
    assert (H : tabConfigs (state_of (setTabConfig (JNum 5)
                  {[ "url" := VStr "u" ]} two_tabs)) !! JNum 5 = None)
      by (rewrite Heq; vm_compute; reflexivity).
    vm_compute in H. discriminate H.
Qed.

Lemma setTabConfig_merge_witness :
  ∃ t : Tab,
    tabConfigs (state_of (setTabConfig (JNum 1) {[ "url" := VStr "u" ]} two_tabs))
      !! JNum 1 = Some (Some t) ∧
    t !! "url" = Some (VStr "u") ∧
    t !! "title" = Some (VStr "New Tab").
Proof.
  destruct (setTabConfig_merge two_tabs (JNum 1) {[ "url" := VStr "u" ]})
    as (t & _ & Hentry & _ & _ & Hkv & Hold & _).
  exists t. split_and!.
  - exact Hentry.
  - apply Hkv. reflexivity.
  - rewrite Hold; [vm_compute; reflexivity|reflexivity|done|done].
Defined.

(** ** The origin check on the channels *)

(** C7. The listener registered for each of the six channels runs the
    command's handler only when the window is not destroyed and the message was
    sent by the window's own control panel; then it is exactly the handler.
    Otherwise it returns without any effect and the object (order, metadata,
    active selection, surfaces and all the rest) is unchanged. So of two
    windows with different control panels, a message reaches at most one. *)
Theorem ipcMain_listener_origin_check (host : Host) (fresh : Z)
    (e : IpcMainEvent) (c : Command) (st : TabbedWindow) :
  (win_isDestroyed (win st) = false → sender e = win_webContents (win st) →
     ipcMain_listener host fresh e c st = channels host fresh e c st) ∧
  (win_isDestroyed (win st) = true ∨ sender e ≠ win_webContents (win st) →
     ipcMain_listener host fresh e c st = (Done tt, st, [])) ∧
  (∀ (st2 : TabbedWindow) (fresh2 : Z),
     win_webContents (win st2) ≠ win_webContents (win st) →
     ipcMain_listener host fresh e c st = (Done tt, st, []) ∨
     ipcMain_listener host fresh2 e c st2 = (Done tt, st2, [])).
Proof.
  assert (Hpass : ∀ f s,
    win_isDestroyed (win s) = false → sender e = win_webContents (win s) →
    ipcMain_listener host f e c s = channels host f e c s).
  { intros f s Hd Hs. unfold ipcMain_listener, bind, get.
    rewrite Hd, Hs, Z.eqb_refl. simpl.
    by destruct (channels host f e c s) as [[o s'] t]. }
  assert (Hdrop : ∀ f s,
    win_isDestroyed (win s) = true ∨ sender e ≠ win_webContents (win s) →
    ipcMain_listener host f e c s = (Done tt, s, [])).
  { intros f s Hg. unfold ipcMain_listener, bind, get.
    destruct Hg as [Hd|Hs].
    - by rewrite Hd.
    - apply Z.eqb_neq in Hs. rewrite Hs, andb_false_r. reflexivity. }
  split_and!.
  - apply Hpass.
  - apply Hdrop.
  - intros st2 fresh2 Hne.
    destruct (decide (sender e = win_webContents (win st))) as [Heq|Hne1].
    + right. apply Hdrop. right. congruence.
    + left. apply Hdrop. by right.
Qed.

Lemma ipcMain_listener_origin_check_witness :
  (win_isDestroyed (win two_tabs) = true ∨
   sender (mkIpcMainEvent 7) ≠ win_webContents (win two_tabs)) ∧
  ipcMain_listener electron 3 (mkIpcMainEvent 7) (CloseTab (JNum 2)) two_tabs
    = (Done tt, two_tabs, []) ∧
  tabs (state_of (ipcMain_listener electron 3 (mkIpcMainEvent 1)
                    (CloseTab (JNum 2)) two_tabs)) = [JNum 1].
Proof.
  assert (H1 : win_isDestroyed (win two_tabs) = true ∨
               sender (mkIpcMainEvent 7) ≠ win_webContents (win two_tabs))
    by (right; vm_compute; congruence).
  split_and!; [exact H1| |].
  - exact (proj1 (proj2 (ipcMain_listener_origin_check electron 3
             (mkIpcMainEvent 7) (CloseTab (JNum 2)) two_tabs)) H1).
  - rewrite (proj1 (ipcMain_listener_origin_check electron 3
               (mkIpcMainEvent 1) (CloseTab (JNum 2)) two_tabs));
      vm_compute; reflexivity.
Defined.

(** ** The [act] command *)

Lemma webContentsAct_run (host : Host) (name : string) (st : TabbedWindow) :
  webContentsAct host name st =
    match currentWebContents st with
    | Some wc =>
        if wc_is_function host name then
          if String.eqb name "reload" && String.eqb (wc_getURL wc) ""
          then (Done tt, st, [])
          else
            match wc_call_error host name wc with
            | Some err => (Thrown err, st, [WcCall (JNum (wc_id wc)) name])
            | None =>
                (Done tt,
                 set_views (<[currentViewId st :=
                                Some (mkBrowserView (wc_invoke name wc))]>
                              (views st)) st,
                 [WcCall (JNum (wc_id wc)) name])
            end
        else (Done tt, st, [LogWarn name])
    | None => (Done tt, st, [LogWarn name])
    end.
Proof.
  unfold webContentsAct, bind at 1, get at 1.
  destruct (currentWebContents st) as [wc|]; [|reflexivity].
  destruct (wc_is_function host name); [|reflexivity].
  destruct (String.eqb name "reload" && String.eqb (wc_getURL wc) "");
    [reflexivity|].
  destruct (wc_call_error host name wc); reflexivity.
Qed.

(** C8 (as amended). An action name that is not a function on the active
    surface's web contents, or any name when there is no active surface, is
    logged as a warning and ignored: nothing is called on a web contents and
    the object is unchanged. A name that is a function there is called, whether
    or not it is one of reload, stop, goBack and goForward (reload only when the
    page has a URL). *)
Theorem webContentsAct_unknown (host : Host) (st : TabbedWindow) (name : string) :
  (currentWebContents st = None ∨ wc_is_function host name = false →
     webContentsAct host name st = (Done tt, st, [LogWarn name])) ∧
  (∀ wc, currentWebContents st = Some wc → wc_is_function host name = true →
     name ≠ "reload" ∨ wc_getURL wc ≠ "" →
     trace_of (webContentsAct host name st) = [WcCall (JNum (wc_id wc)) name]).
Proof.
  rewrite webContentsAct_run. split.
  - intros [->|Hf]; [reflexivity|].
    destruct (currentWebContents st); [|reflexivity]. by rewrite Hf.
  - intros wc -> -> Hcase.
    assert (Hguard : String.eqb name "reload" && String.eqb (wc_getURL wc) "" = false).
    { apply andb_false_iff. destruct Hcase as [Hn|Hu]; [left|right];
        by apply String.eqb_neq. }
    rewrite Hguard. by destruct (wc_call_error host name wc).
Qed.

Lemma webContentsAct_unknown_witness :
  (currentWebContents two_tabs = None ∨ wc_is_function electron "back" = false) ∧
  webContentsAct electron "back" two_tabs = (Done tt, two_tabs, [LogWarn "back"]).
Proof.
  assert (H : currentWebContents two_tabs = None ∨
              wc_is_function electron "back" = false)
    by (right; vm_compute; reflexivity).
  split; [exact H|].
  exact (proj1 (webContentsAct_unknown electron two_tabs "back") H).
Defined.

(** C8, where it fails: [destroy] is none of reload, stop, goBack, goForward,
    yet the [act] command calls it on the active web contents, logs nothing,
    and leaves that web contents destroyed. *)
Lemma act_destroy_is_invoked :
  currentViewId two_tabs = JNum 2 ∧
  trace_of (webContentsAct electron "destroy" two_tabs)
    = [WcCall (JNum 2) "destroy"] ∧
  (wc_isDestroyed <$> currentWebContents two_tabs) = Some false ∧
  (wc_isDestroyed <$>
     currentWebContents (state_of (webContentsAct electron "destroy" two_tabs)))
    = Some true.
Proof. split_and!; vm_compute; reflexivity. Qed.

(** C10. With an active surface: the reload action, reload being a function of
    the web contents, is skipped without a call and without a warning when the
    surface's URL is the empty string, the object staying as it is; every other
    name that is a function of the web contents is called, whatever the URL,
    and that one call is all the command does. The command returns exactly
    when the called function does: what the function throws is not caught. *)
Theorem webContentsAct_reload_guard (host : Host) (st : TabbedWindow)
    (wc : WebContents) :
  currentWebContents st = Some wc →
  (wc_is_function host "reload" = true → wc_getURL wc = "" →
     webContentsAct host "reload" st = (Done tt, st, [])) ∧
  (∀ name, name ≠ "reload" → wc_is_function host name = true →
     trace_of (webContentsAct host name st) = [WcCall (JNum (wc_id wc)) name] ∧
     (completed (webContentsAct host name st) = true ↔
        wc_call_error host name wc = None)).
Proof.
  intros Hwc. split.
  - intros Hf Hurl. rewrite webContentsAct_run, Hwc, Hf, Hurl. reflexivity.
  - intros name Hn Hf. rewrite webContentsAct_run, Hwc, Hf.
    apply String.eqb_neq in Hn. rewrite Hn. cbn [andb].
    destruct (wc_call_error host name wc) as [err|];
      unfold completed, trace_of; cbn [fst snd]; split; try reflexivity;
      split; congruence.
Qed.

Lemma webContentsAct_reload_guard_witness :
  currentWebContents two_tabs = Some (mkWebContents 2 false "" false false true) ∧
  webContentsAct electron "reload" two_tabs = (Done tt, two_tabs, []) ∧
  trace_of (webContentsAct electron "stop" two_tabs) = [WcCall (JNum 2) "stop"] ∧
  completed (webContentsAct electron "stop" two_tabs) = true ∧
  trace_of (webContentsAct electron "on" two_tabs) = [WcCall (JNum 2) "on"].
Proof.
  assert (H : currentWebContents two_tabs
              = Some (mkWebContents 2 false "" false false true))
    by (vm_compute; reflexivity).
  destruct (webContentsAct_reload_guard electron two_tabs _ H) as [Hr Ho].
  split_and!; [exact H| | | |].
  - apply Hr; reflexivity.
  - apply (Ho "stop"); [done|reflexivity].
  - apply (Ho "stop"); [done|reflexivity|reflexivity].
  - apply (Ho "on"); [done|reflexivity].
Defined.

(** The name [on] through the registered listener: [on] is a function of the
    web contents, so it is called, with no listener to add; the call throws,
    and the error leaves the [act] entry and the wrapper around it. Nothing
    of the object has changed by then. *)
Example act_on_throws_through_listener :
  ipcMain_listener electron 3 (mkIpcMainEvent 1) (Act "on") two_tabs
    = (Thrown "TypeError: The listener argument must be of type function",
       two_tabs, [WcCall (JNum 2) "on"]).
Proof. vm_compute. reflexivity. Qed.

(** ** The registry invariant over sequences of opens and closes *)

Section Invariant.

Variable host : Host.

Lemma elem_of_newTab_tabs st id appendTo x :
  x ∈ newTab_tabs st id appendTo ↔ x = JNum id ∨ x ∈ tabs st.
Proof.
  unfold newTab_tabs. destruct (truthy appendTo).
  - apply elem_of_splice_insert.
  - rewrite elem_of_app, list_elem_of_singleton. tauto.
Qed.

Lemma NoDup_newTab_tabs st id appendTo :
  JNum id ∉ tabs st → NoDup (tabs st) → NoDup (newTab_tabs st id appendTo).
Proof.
  intros Hid Hnd. unfold newTab_tabs. destruct (truthy appendTo).
  - by apply NoDup_splice_insert.
  - apply NoDup_app. split_and!; [done| |apply NoDup_singleton].
    intros x Hx ->%list_elem_of_singleton. done.
Qed.

Lemma newTab_final_live st id url appendTo x :
  x = JNum id ∨ live st x → live (newTab_final st id url appendTo) x.
Proof.
  intros Hx.
  assert (Hreg : live (newTab_registered st id appendTo) x).
  { unfold live. rewrite newTab_registered_views_at.
    destruct (decide (x = JNum id)) as [->|Hne].
    - by exists (new_BrowserView id).
    - by destruct Hx. }
  assert (Hsel : live (newTab_selected st id appendTo) x).
  { unfold newTab_selected. by destruct (truthy (JNum id)). }
  apply (loadURL_live (or_string url (blankPage (options st)))) in Hsel.
  exact Hsel.
Qed.

Lemma newTab_preserves used open st id url appendTo :
  registry_ok used open st → id ∉ used →
  registry_ok (used ++ [id]) (JNum id :: open)
    (state_of (newTab host id url appendTo st)).
Proof.
  intros (Hnd & Hopen & Hconf & Hlive) Hfresh.
  destruct (newTab_run host id url appendTo st) as (tr & -> & _).
  unfold state_of. cbn [fst snd].
  assert (Hnew : JNum id ∉ tabs st).
  { intros Hin. destruct (Hlive _ Hin) as (_ & n & Hn & Hused).
    by simplify_eq. }
  unfold registry_ok. rewrite newTab_final_tabs, newTab_final_confs.
  split_and!.
  - by apply NoDup_newTab_tabs.
  - intros x. rewrite elem_of_newTab_tabs, elem_of_cons, Hopen. done.
  - intros x. rewrite elem_of_newTab_tabs. unfold newTab_confs.
    destruct (decide (x = JNum id)) as [->|Hne].
    + rewrite lookup_insert_eq. split; [eauto|]. by left.
    + rewrite lookup_insert_ne by done. rewrite <- Hconf. tauto.
  - intros x Hx. apply elem_of_newTab_tabs in Hx. split.
    + apply newTab_final_live. destruct Hx as [->|Hx]; [by left|].
      right. by apply Hlive.
    + destruct Hx as [->|Hx].
      * exists id. split; [done|]. rewrite elem_of_app, list_elem_of_singleton.
        by right.
      * destruct (Hlive _ Hx) as (_ & n & Hn & Hused).
        exists n. split; [done|]. rewrite elem_of_app. by left.
Qed.

(** Under the invariant the [close-tab] handler returns, and what it did
    before dropping the id was at most to move the active selection. *)
Lemma close_tab_returns st id :
  (∀ x, x ∈ tabs st → live st x) →
  ∃ s' tr,
    close_tab host id st = (Done tt, close_state id s', tr) ∧
    tabs s' = tabs st ∧ views s' = views st ∧ tabConfigs s' = tabConfigs st.
Proof.
  intros Hlive. destruct (decide (id = currentViewId st)) as [->|Hne].
  - destruct (truthy (close_next (currentViewId st) st)) eqn:Ht.
    + destruct (close_next_elem (currentViewId st) st) as [Hu|Hin].
      { rewrite Hu in Ht. discriminate Ht. }
      destruct (Hlive _ Hin) as (v & Hv & _).
      exists (set_defCurrentViewId (close_next (currentViewId st) st) st).
      eexists. split; [|done].
      apply close_tab_run_active.
      by apply (setCurrentView_run_view host _ v).
    + exists st, ([] ++ close_trace (currentViewId st) st). split; [|done].
      apply close_tab_run_active. by apply setCurrentView_run_falsy.
  - exists st, (close_trace id st). split; [|done].
    by apply close_tab_run_inactive.
Qed.

Lemma close_tab_preserves used open st id :
  registry_ok used open st →
  registry_ok used (filter_ne id open) (state_of (close_tab host id st)).
Proof.
  intros (Hnd & Hopen & Hconf & Hlive).
  destruct (close_tab_returns st id) as (s' & tr & -> & Ht & Hv & Hc).
  { intros x Hx. by apply Hlive. }
  unfold state_of. cbn [fst snd]. unfold registry_ok.
  rewrite close_state_tabs, close_state_confs, Ht, Hc.
  split_and!.
  - by apply NoDup_filter_ne.
  - intros x. rewrite !elem_of_filter_ne, Hopen. done.
  - intros x. rewrite elem_of_filter_ne.
    destruct (decide (x = id)) as [->|Hne].
    + rewrite lookup_insert_eq. split; [tauto|].
      intros (t & Hcontra). discriminate Hcontra.
    + rewrite lookup_insert_ne by done. rewrite <- Hconf. tauto.
  - intros x [Hx Hne]%elem_of_filter_ne.
    destruct (Hlive _ Hx) as ((v & Hview & Hid & Hd) & Hused). split; [|done].
    exists v. split; [|done].
    rewrite close_state_views_at, decide_False by done.
    unfold views_at. by rewrite Hv.
Qed.

Lemma opened_ids_snoc ops op :
  opened_ids (ops ++ [op]) =
    opened_ids ops ++
    match op with OpenTab id _ _ => [id] | CloseTabOp _ => [] end.
Proof.
  unfold opened_ids. rewrite omap_app. by destruct op.
Qed.

Lemma run_ops_registry_ok opts w e ops :
  NoDup (opened_ids ops) →
  registry_ok (opened_ids ops) (still_open ops)
    (run_ops host ops (set_ipc e (constructor opts w))).
Proof.
  induction ops as [|op ops IH] using rev_ind; intros Hnd.
  - unfold registry_ok. simpl. split_and!.
    + constructor.
    + done.
    + intros x. split; [by intros ?%elem_of_nil|].
      intros (t & Ht). by rewrite lookup_empty in Ht.
    + by intros x ?%elem_of_nil.
  - rewrite opened_ids_snoc in Hnd |- *.
    unfold run_ops, still_open. rewrite !foldl_app. simpl.
    fold (run_ops host ops (set_ipc e (constructor opts w))).
    fold (still_open ops).
    destruct op as [id url appendTo|id].
    + apply NoDup_app in Hnd as (Hnd & Hfresh & _).
      apply newTab_preserves; [by apply IH|].
      intros Hin. apply (Hfresh _ Hin). by apply list_elem_of_singleton.
    + rewrite app_nil_r in Hnd |- *. apply close_tab_preserves. by apply IH.
Qed.

End Invariant.

(** C2. Starting from the empty registry of the constructor (the control panel
    connected or not), after any finite sequence of [openTab] and [closeTab]
    calls in which the host never hands out the same id twice: the order
    sequence has no duplicates; its ids are exactly the ids opened and not
    closed since; and they are exactly the ids whose entry in the metadata
    mapping is a [Tab] rather than [null] or missing. *)
Theorem registry_invariant (host : Host) (opts : Options) (w : BrowserWindow)
    (e : option IpcMainEvent) (ops : list RegistryOp) :
  NoDup (opened_ids ops) →
  NoDup (tabs (run_ops host ops (set_ipc e (constructor opts w)))) ∧
  (∀ x, x ∈ tabs (run_ops host ops (set_ipc e (constructor opts w)))
        ↔ x ∈ still_open ops) ∧
  (∀ x, x ∈ tabs (run_ops host ops (set_ipc e (constructor opts w)))
        ↔ ∃ t, tabConfigs (run_ops host ops (set_ipc e (constructor opts w))) !! x
               = Some (Some t)).
Proof.
  intros Hnd.
  destruct (run_ops_registry_ok host opts w e ops Hnd) as (H1 & H2 & H3 & _).
  done.
Qed.

Lemma registry_invariant_witness :
  NoDup (opened_ids sample_ops) ∧
  tabs (run_ops electron sample_ops (set_ipc None (constructor opts0 win0)))
    = [JNum 1; JNum 3] ∧
  NoDup (tabs (run_ops electron sample_ops (set_ipc None (constructor opts0 win0)))).
Proof.
  assert (H : NoDup (opened_ids sample_ops))
    by (apply (bool_decide_unpack _); vm_compute; exact I).
  split_and!; [exact H|vm_compute; reflexivity|].
  exact (proj1 (registry_invariant electron opts0 win0 None sample_ops H)).
Defined.

(** ** The scenarios of the specification, run on the model *)

(** Three tabs [1; 2; 3] with 2 active: closing 2 makes 3 active; then, 3
    being last, closing 3 makes 1 active. *)
Example scenario_close_middle_then_last :
  tabs three_tabs_mid = [JNum 1; JNum 2; JNum 3] ∧
  currentViewId three_tabs_mid = JNum 2 ∧
  tabs (state_of (close_tab electron (JNum 2) three_tabs_mid)) = [JNum 1; JNum 3] ∧
  currentViewId (state_of (close_tab electron (JNum 2) three_tabs_mid)) = JNum 3 ∧
  currentViewId
    (state_of (close_tab electron (JNum 3)
                 (state_of (close_tab electron (JNum 2) three_tabs_mid))))
    = JNum 1.
Proof. split_and!; vm_compute; reflexivity. Qed.

(** Open 1, open 2 after 1, close 2: the order is [1] and 1 is active again,
    with the view of 2 detached and the view of 1 attached. *)
Example scenario_open_two_close_second :
  tabs two_tabs = [JNum 1; JNum 2] ∧
  currentViewId two_tabs = JNum 2 ∧
  tabs (state_of (close_tab electron (JNum 2) two_tabs)) = [JNum 1] ∧
  currentViewId (state_of (close_tab electron (JNum 2) two_tabs)) = JNum 1 ∧
  take 2 (trace_of (close_tab electron (JNum 2) two_tabs))
    = [RemoveBrowserView (JNum 2); AddBrowserView (Some (JNum 1))].
Proof. split_and!; vm_compute; reflexivity. Qed.

(** * More of the class *)

Ltac run_next tac := eapply runs_bind; [tac|]; cbv beta.
Tactic Notation "run_step" tactic3(tac) := run_next tac.

(** ** Loading, layout, release *)

Lemma currentView_truthy st cv :
  currentView st = Some cv →
  truthy (currentViewId st) = true ∧ views_at st (currentViewId st) = Some cv.
Proof. unfold currentView. by destruct (truthy (currentViewId st)). Qed.

Lemma currentView_mark_current st cv :
  currentView st = Some cv →
  currentView (mark_current cv st)
    = Some (mkBrowserView (wc_set_marks (webContents cv))).
Proof.
  intros [Ht Hv]%currentView_truthy. unfold currentView, mark_current.
  change (currentViewId (set_views _ st)) with (currentViewId st).
  rewrite Ht. unfold views_at. simpl. by rewrite lookup_insert_eq.
Qed.

(** X1. [loadURL] puts its listeners on a web contents once: with an active
    view and non-empty URLs, the first load registers the listeners exactly
    when the web contents is not marked yet, and leaves it marked; a second
    load into the same view only calls [loadURL] on it and changes nothing in
    the object. *)
Theorem loadURL_listeners_once (st : TabbedWindow) (cv : BrowserView)
    (url1 url2 : string) :
  currentView st = Some cv → url1 ≠ "" → url2 ≠ "" →
  (WcOnEvents (view_id cv) ∈ trace_of (loadURL url1 st)
     ↔ wc_marks (webContents cv) = false) ∧
  (wc_marks <$> currentWebContents (state_of (loadURL url1 st))) = Some true ∧
  loadURL url2 (state_of (loadURL url1 st))
    = (Done tt, state_of (loadURL url1 st), [WcLoadURL (view_id cv) url2]).
Proof.
  intros Hcv H1 H2.
  apply String.eqb_neq in H1. apply String.eqb_neq in H2.
  rewrite (loadURL_run url1 st), Hcv, H1.
  destruct (wc_marks (webContents cv)) eqn:Hm; unfold state_of, trace_of;
    cbn [fst snd].
  - split_and!.
    + rewrite list_elem_of_singleton. split; [discriminate|discriminate].
    + unfold currentWebContents. rewrite Hcv. simpl. by rewrite Hm.
    + by rewrite loadURL_run, Hcv, H2, Hm.
  - split_and!.
    + split; [done|]. intros _. rewrite elem_of_app. left. by left.
    + unfold currentWebContents. by rewrite currentView_mark_current.
    + rewrite loadURL_run, currentView_mark_current, H2 by done. reflexivity.
Qed.

Lemma loadURL_listeners_once_witness :
  currentView one_tab = Some (mkBrowserView (mkWebContents 1 false "" false false true)) ∧
  loadURL "https://b.test" (state_of (loadURL "https://a.test" one_tab))
    = (Done tt, state_of (loadURL "https://a.test" one_tab),
       [WcLoadURL (JNum 1) "https://b.test"]).
Proof.
  assert (H : currentView one_tab
              = Some (mkBrowserView (mkWebContents 1 false "" false false true)))
    by (vm_compute; reflexivity).
  split; [exact H|].
  exact (proj2 (proj2 (loadURL_listeners_once one_tab _ "https://a.test"
                         "https://b.test" H ltac:(discriminate) ltac:(discriminate)))).
Defined.

(** X2. [destroyView] releases a view once: afterwards [views] holds no
    object for the id, a second call does nothing at all, the web contents is
    destroyed only if it was not destroyed already, and no other id's view,
    the order, the metadata and the active id are touched. *)
Theorem destroyView_idempotent (st : TabbedWindow) (id : jsid) :
  completed (destroyView id st) = true ∧
  views_at (state_of (destroyView id st)) id = None ∧
  destroyView id (state_of (destroyView id st))
    = (Done tt, state_of (destroyView id st), []) ∧
  trace_of (destroyView id st)
    = match views_at st id with
      | Some v => if wc_isDestroyed (webContents v) then []
                  else [WcDestroy (view_id v)]
      | None => []
      end ∧
  (∀ x, x ≠ id → views (state_of (destroyView id st)) !! x = views st !! x) ∧
  tabs (state_of (destroyView id st)) = tabs st ∧
  tabConfigs (state_of (destroyView id st)) = tabConfigs st ∧
  currentViewId (state_of (destroyView id st)) = currentViewId st.
Proof.
  destruct (views_at st id) as [v|] eqn:Hv.
  - rewrite (destroyView_run_some id v st Hv).
    unfold completed, state_of, trace_of. cbn [fst snd].
    assert (Hnone : views_at (set_views (<[id:=None]> (views st)) st) id = None).
    { unfold views_at. simpl. by rewrite lookup_insert_eq. }
    split_and!; try done.
    + by apply destroyView_run_none.
    + intros x Hx. simpl. by rewrite lookup_insert_ne.
  - rewrite (destroyView_run_none id st Hv).
    unfold completed, state_of, trace_of. cbn [fst snd].
    split_and!; try done. by apply destroyView_run_none.
Qed.

(** X3. [setContentBounds] never changes the object. Without an active view it
    does nothing; with one it sets that view's bounds once, to the rectangle
    right under the control strip of [getControlBounds]: same left edge and
    width, top at the strip's bottom, bottom at the content height. *)
Theorem setContentBounds_under_control (st : TabbedWindow) :
  completed (setContentBounds st) = true ∧
  state_of (setContentBounds st) = st ∧
  (currentView st = None → trace_of (setContentBounds st) = []) ∧
  (∀ v, currentView st = Some v →
     ∃ b, trace_of (setContentBounds st) = [SetBounds (view_id v) b] ∧
          b_x b = b_x (getControlBounds st) ∧
          b_width b = b_width (getControlBounds st) ∧
          b_y b = (b_y (getControlBounds st) + b_height (getControlBounds st))%Z ∧
          (b_y b + b_height b)%Z = win_contentHeight (win st)).
Proof.
  rewrite setContentBounds_run. unfold completed, state_of, trace_of, bounds_trace.
  cbn [fst snd]. split_and!; try done.
  - by intros ->.
  - intros v ->. eexists. split; [reflexivity|]. simpl. split_and!; try done. lia.
Qed.

Lemma setContentBounds_under_control_witness :
  currentView two_tabs = Some (mkBrowserView (mkWebContents 2 false "" false false true)) ∧
  ∃ b, trace_of (setContentBounds two_tabs) = [SetBounds (JNum 2) b] ∧
       (b_y b + b_height b)%Z = 600%Z.
Proof.
  assert (H : currentView two_tabs
              = Some (mkBrowserView (mkWebContents 2 false "" false false true)))
    by (vm_compute; reflexivity).
  split; [exact H|].
  destruct (proj2 (proj2 (proj2 (setContentBounds_under_control two_tabs))) _ H)
    as (b & Htr & _ & _ & _ & Hbottom).
  exists b. split; [exact Htr|exact Hbottom].
Defined.

(** ** [newTab] with its effects *)

Lemma newTab_loaded_frame st id url appendTo :
  tabs (newTab_loaded st id url appendTo) = newTab_tabs st id appendTo ∧
  ipc (newTab_loaded st id url appendTo) = ipc st ∧
  tabConfigs (newTab_loaded st id url appendTo) = tabConfigs st ∧
  options (newTab_loaded st id url appendTo) = options st ∧
  win (newTab_loaded st id url appendTo) = win st.
Proof.
  unfold newTab_loaded, tabConfigs.
  destruct (loadURL_frame (or_string url (blankPage (options st)))
              (newTab_selected st id appendTo))
    as (-> & _ & -> & -> & -> & -> & _).
  unfold newTab_selected. by destruct (truthy (JNum id)).
Qed.

Lemma newTab_select_run host st id appendTo :
  setCurrentView host (JNum id) (newTab_registered st id appendTo)
    = (Done tt, newTab_selected st id appendTo, newTab_select_trace st id appendTo).
Proof.
  unfold newTab_select_trace, newTab_selected.
  destruct (truthy (JNum id)) eqn:Ht.
  - rewrite (setCurrentView_run_view host _ (new_BrowserView id));
      [reflexivity|exact Ht|].
    rewrite newTab_registered_views_at. by rewrite decide_True.
  - by apply setCurrentView_run_falsy.
Qed.

Lemma newTab_run_full host id url appendTo st :
  newTab host id url appendTo st =
    (Done (default (new_BrowserView id)
             (views_at (newTab_final st id url appendTo) (JNum id))),
     newTab_final st id url appendTo,
     newTab_trace st id url appendTo).
Proof.
  assert (Hins : (if truthy appendTo
                  then modify (set_tabs (splice_insert (tabs st)
                                 (indexOf (tabs st) appendTo + 1)
                                 (view_id (new_BrowserView id))))
                  else modify (set_tabs (tabs st ++ [view_id (new_BrowserView id)]))) st
                 = (Done tt, set_tabs (newTab_tabs st id appendTo) st, [])).
  { unfold newTab_tabs. destruct (truthy appendTo); reflexivity. }
  destruct (newTab_loaded_frame st id url appendTo) as (Htabs & Hipc & Hconf & _).
  eapply run_trace_eq.
  - unfold newTab.
    run_step reflexivity.
    run_step reflexivity.
    run_step (exact Hins).
    run_step reflexivity.
    run_step reflexivity.
    run_step (apply (newTab_select_run host st id appendTo)).
    run_step reflexivity.
    run_step (apply loadURL_done).
    run_step (apply setTabConfig_run).
    match goal with
    | |- _ ?S = _ => assert (HS : S = newTab_final st id url appendTo)
    end.
    { unfold newTab_final, newTab_confs. rewrite <- Hconf. reflexivity. }
    rewrite HS.
    run_step reflexivity. run_step reflexivity. reflexivity.
  - unfold newTab_trace.
    change (view_id (new_BrowserView id)) with (JNum id).
    change (options (set_views ?a (set_tabs ?b st))) with (options st).
    fold (newTab_loaded st id url appendTo).
    unfold reply_if. rewrite Hipc, Htabs, Hconf.
    fold (newTab_confs st id url appendTo).
    rewrite !app_nil_r. reflexivity.
Qed.

Lemma tabItemCount_after_app n tr1 tr2 :
  tabItemCount_after n (tr1 ++ tr2)
    = tabItemCount_after (tabItemCount_after n tr1) tr2.
Proof. unfold tabItemCount_after. apply foldl_app. Qed.

Lemma newTab_loaded_new_view st id url appendTo :
  ∃ v, views_at (newTab_loaded st id url appendTo) (JNum id) = Some v ∧
       wc_canGoBack (webContents v) = false ∧
       wc_canGoForward (webContents v) = false.
Proof.
  assert (Hsel : views_at (newTab_selected st id appendTo) (JNum id)
                 = Some (new_BrowserView id)).
  { unfold newTab_selected.
    destruct (truthy (JNum id));
      [change (views_at (set_defCurrentViewId _ ?s)) with (views_at s)|];
      rewrite newTab_registered_views_at; by rewrite decide_True. }
  unfold newTab_loaded.
  destruct (loadURL_frame (or_string url (blankPage (options st)))
              (newTab_selected st id appendTo)) as (_ & _ & _ & _ & _ & _ & Hviews).
  destruct (Hviews (JNum id)) as [->|(cv & Hcv & ->)].
  - rewrite Hsel. by eexists.
  - rewrite Hsel in Hcv. simplify_eq. by eexists.
Qed.

(** X4. [newTab] registers the new tab's metadata: when the id has no [Tab]
    yet (no entry, or a [null] one), its entry afterwards is exactly the blank
    title with [canGoBack] and [canGoForward] false, and the entries of all
    other ids are as before. *)
Theorem newTab_registers_entry (host : Host) (st : TabbedWindow) (id : Z)
    (url : option string) (appendTo : jsid) :
  mjoin (tabConfigs st !! JNum id) = None →
  tabConfigs (state_of (newTab host id url appendTo st)) !! JNum id
    = Some (Some (<["title" := VStr (blankTitle (options st))]>
                    (<["canGoForward" := VBool false]>
                       (<["canGoBack" := VBool false]> ∅)))) ∧
  (∀ x, x ≠ JNum id →
     tabConfigs (state_of (newTab host id url appendTo st)) !! x
       = tabConfigs st !! x).
Proof.
  intros Hold. rewrite newTab_run_full. unfold state_of. cbn [fst snd].
  rewrite newTab_final_confs. unfold newTab_confs. split.
  - rewrite lookup_insert_eq. do 2 f_equal.
    unfold merge_tab, live_flag.
    destruct (newTab_loaded_frame st id url appendTo) as (_ & _ & -> & _).
    destruct (newTab_loaded_new_view st id url appendTo) as (v & Hv & Hb & Hf).
    rewrite Hv, Hold. cbn [fmap option_fmap option_map default].
    rewrite Hb, Hf. by rewrite insert_union_singleton_l.
  - intros x Hx. by rewrite lookup_insert_ne.
Qed.

Lemma newTab_registers_entry_witness :
  mjoin (tabConfigs one_tab !! JNum 2) = None ∧
  tabConfigs (state_of (newTab electron 2 (Some "https://x.test") (JNum 1) one_tab))
    !! JNum 2
    = Some (Some (<["title" := VStr "New Tab"]>
                    (<["canGoForward" := VBool false]>
                       (<["canGoBack" := VBool false]> ∅)))).
Proof.
  assert (H : mjoin (tabConfigs one_tab !! JNum 2) = None)
    by (vm_compute; reflexivity).
  split; [exact H|].
  exact (proj1 (newTab_registers_entry electron one_tab 2
                  (Some "https://x.test") (JNum 1) H)).
Defined.

Lemma select_trace_loads_nothing st id appendTo :
  Forall (λ e, loads_page e = false) (newTab_select_trace st id appendTo).
Proof.
  unfold newTab_select_trace, remove_trace, bounds_trace, reply_if.
  destruct (truthy (JNum id)); [|constructor].
  repeat apply Forall_app_2.
  - destruct (currentView _); repeat constructor.
  - repeat constructor.
  - destruct (currentView _); repeat constructor.
  - destruct (bool_decide _); repeat constructor.
  - repeat constructor.
Qed.

(** X5. [newTab] loads a page into the new view exactly when [url ||
    blankPage] is not empty. When it is empty (no URL given and no blank page
    configured) nothing is loaded and no listener is put on the new web
    contents, which stays unmarked. Otherwise, the id being non-zero, the
    listeners are registered on the new web contents, that URL is loaded into
    it and it is marked. *)
Theorem newTab_loads_iff_url (host : Host) (st : TabbedWindow) (id : Z)
    (url : option string) (appendTo : jsid) :
  id ≠ 0%Z →
  (or_string url (blankPage (options st)) = "" →
     Forall (λ e, loads_page e = false)
       (trace_of (newTab host id url appendTo st)) ∧
     views_at (state_of (newTab host id url appendTo st)) (JNum id)
       = Some (new_BrowserView id)) ∧
  (or_string url (blankPage (options st)) ≠ "" →
     WcOnEvents (JNum id) ∈ trace_of (newTab host id url appendTo st) ∧
     WcLoadURL (JNum id) (or_string url (blankPage (options st)))
       ∈ trace_of (newTab host id url appendTo st) ∧
     views_at (state_of (newTab host id url appendTo st)) (JNum id)
       = Some (mkBrowserView (wc_set_marks (webContents (new_BrowserView id))))).
Proof.
  intros Hid. rewrite newTab_run_full. unfold state_of, trace_of. cbn [fst snd].
  assert (Ht : truthy (JNum id) = true).
  { simpl. by destruct (Z.eqb_spec id 0). }
  assert (Hcur : currentView (newTab_selected st id appendTo)
                 = Some (new_BrowserView id)).
  { unfold newTab_selected. rewrite Ht.
    rewrite currentView_set_current by done.
    rewrite newTab_registered_views_at. by rewrite decide_True. }
  assert (Hfin : ∀ x, views_at (newTab_final st id url appendTo) x
                      = views_at (newTab_loaded st id url appendTo) x) by done.
  unfold newTab_trace. rewrite Hfin. unfold newTab_loaded.
  rewrite loadURL_run, Hcur. split.
  - intros Hu. rewrite Hu, String.eqb_refl.
    unfold state_of, trace_of. cbn [fst snd]. split.
    + repeat apply Forall_app_2.
      * repeat constructor.
      * apply select_trace_loads_nothing.
      * repeat constructor.
      * constructor.
      * unfold reply_if. destruct (bool_decide _); repeat constructor.
      * repeat constructor.
    + unfold newTab_selected. rewrite Ht.
      change (views_at (set_defCurrentViewId _ ?s)) with (views_at s).
      rewrite newTab_registered_views_at. by rewrite decide_True.
  - intros Hu. apply String.eqb_neq in Hu. rewrite Hu.
    change (wc_marks (webContents (new_BrowserView id))) with false.
    cbn match. unfold state_of, trace_of. cbn [fst snd].
    change (view_id (new_BrowserView id)) with (JNum id). split_and!.
    + rewrite !elem_of_app. right. right. right. left. left. by left.
    + rewrite !elem_of_app. right. right. right. left. left. right. by left.
    + unfold mark_current, views_at. cbn [views set_views].
      unfold newTab_selected. rewrite Ht.
      change (currentViewId (set_defCurrentViewId (JNum id) _)) with (JNum id).
      by rewrite lookup_insert_eq.
Qed.

Lemma newTab_loads_iff_url_witness :
  2%Z ≠ 0%Z ∧
  or_string None (blankPage (options one_tab)) = "" ∧
  views_at (state_of (newTab electron 2 None JNull one_tab)) (JNum 2)
    = Some (new_BrowserView 2) ∧
  WcLoadURL (JNum 2) "https://x.test"
    ∈ trace_of (newTab electron 2 (Some "https://x.test") JNull one_tab).
Proof.
  assert (H0 : 2%Z ≠ 0%Z) by lia.
  assert (H1 : or_string None (blankPage (options one_tab)) = "")
    by (vm_compute; reflexivity).
  split_and!; [exact H0|exact H1| |].
  - exact (proj2 (proj1 (newTab_loads_iff_url electron one_tab 2 None JNull H0) H1)).
  - refine (proj1 (proj2 (proj2 (newTab_loads_iff_url electron one_tab 2
              (Some "https://x.test") JNull H0) _))).
    vm_compute. discriminate.
Defined.

(** ** The commands *)

Lemma or_string_self s : or_string (Some s) "" = s.
Proof.
  unfold or_string. destruct (String.eqb_spec s ""); [by subst|done].
Qed.

Lemma control_ready_run host id e st :
  control_ready host id e st =
    (Done tt,
     newTab_final (set_ipc (Some e) st) id (Some (startPage (options st))) JUndefined,
     newTab_trace (set_ipc (Some e) st) id (Some (startPage (options st))) JUndefined
     ++ [WinShow; EmitControlReady]).
Proof.
  eapply run_trace_eq.
  - unfold control_ready.
    run_step reflexivity. run_step reflexivity.
    change (options (set_ipc (Some e) st)) with (options st).
    rewrite or_string_self.
    run_step (apply newTab_run_full).
    run_step reflexivity. reflexivity.
  - reflexivity.
Qed.

(** X6. The [control-ready] command, with a non-zero id from the host, keeps
    the sender's event as the reply channel, opens one tab on the start page at
    the end of the order and makes it active; because the reply channel is set
    first, the panel is sent the [active-update] for the new id and a
    [tabs-update] with the new order; the command ends by showing the window
    and emitting [control-ready]. *)
Theorem control_ready_opens_start_tab (host : Host) (st : TabbedWindow) (id : Z)
    (e : IpcMainEvent) :
  id ≠ 0%Z →
  completed (control_ready host id e st) = true ∧
  ipc (state_of (control_ready host id e st)) = Some e ∧
  tabs (state_of (control_ready host id e st)) = tabs st ++ [JNum id] ∧
  currentViewId (state_of (control_ready host id e st)) = JNum id ∧
  ReplyActiveUpdate (JNum id) ∈ trace_of (control_ready host id e st) ∧
  ReplyTabsUpdate (tabConfigs (state_of (control_ready host id e st)))
    (tabs st ++ [JNum id]) ∈ trace_of (control_ready host id e st) ∧
  ∃ tr lastView,
    trace_of (control_ready host id e st)
      = tr ++ [EmitNewTab (JNum id) (Some (startPage (options st))) lastView;
               WinShow; EmitControlReady].
Proof.
  intros Hid. rewrite control_ready_run.
  unfold completed, state_of, trace_of. cbn [fst snd].
  assert (Ht : truthy (JNum id) = true).
  { simpl. by destruct (Z.eqb_spec id 0). }
  rewrite newTab_final_tabs, newTab_final_current, newTab_final_confs, Ht.
  destruct (newTab_loaded_frame (set_ipc (Some e) st) id
              (Some (startPage (options st))) JUndefined) as (_ & Hipc & _).
  unfold newTab_trace, newTab_select_trace, reply_if. rewrite Ht.
  change (ipc (set_ipc (Some e) st)) with (Some e).
  rewrite bool_decide_true by eauto.
  split_and!.
  - done.
  - exact Hipc.
  - reflexivity.
  - reflexivity.
  - rewrite !elem_of_app. left. right. left. right. right. right. left.
    by left.
  - rewrite !elem_of_app. left. right. right. right. right. left. by left.
  - eexists _, _. rewrite !app_assoc. rewrite <- app_assoc. reflexivity.
Qed.

Lemma control_ready_opens_start_tab_witness :
  1%Z ≠ 0%Z ∧
  tabs (state_of (control_ready electron 1 (mkIpcMainEvent 1)
                    (constructor opts0 win0))) = [JNum 1] ∧
  ReplyActiveUpdate (JNum 1)
    ∈ trace_of (control_ready electron 1 (mkIpcMainEvent 1) (constructor opts0 win0)).
Proof.
  assert (H : 1%Z ≠ 0%Z) by lia.
  destruct (control_ready_opens_start_tab electron (constructor opts0 win0) 1
              (mkIpcMainEvent 1) H) as (_ & _ & Ht & _ & Hr & _).
  split_and!; [exact H|exact Ht|exact Hr].
Defined.

Lemma url_change_run url st :
  url_change url st =
    (Done tt,
     set_defTabConfigs
       (<[currentViewId st :=
            Some (merge_tab st (currentViewId st) {[ "url" := url ]})]>
          (tabConfigs st)) st,
     reply_if st
       (ReplyTabsUpdate
          (<[currentViewId st :=
               Some (merge_tab st (currentViewId st) {[ "url" := url ]})]>
             (tabConfigs st)) (tabs st))).
Proof.
  eapply run_trace_eq.
  - unfold url_change. run_step reflexivity.
    run_step (apply setTabConfig_run). reflexivity.
  - simpl. by rewrite app_nil_r.
Qed.


(** X8. A closed tab can come back into the metadata: when the only tab is
    closed while active, the order is empty but the active id still names it,
    so a following [url-change] turns its [null] entry into a [Tab] again: an
    id with a [Tab] entry that is not in the order. *)
Theorem url_change_after_closing_only_tab (host : Host) (st : TabbedWindow)
    (url : jsval) :
  tabs st = [currentViewId st] →
  tabs (state_of (close_tab host (currentViewId st) st)) = [] ∧
  tabConfigs (state_of (close_tab host (currentViewId st) st)) !! currentViewId st
    = Some None ∧
  tabs (state_of (url_change url
                    (state_of (close_tab host (currentViewId st) st)))) = [] ∧
  ∃ t, tabConfigs (state_of (url_change url
                      (state_of (close_tab host (currentViewId st) st))))
         !! currentViewId st = Some (Some t) ∧
       t !! "url" = Some url.
Proof.
  intros Ht.
  assert (Hclosed : state_of (close_tab host (currentViewId st) st)
                    = close_state (currentViewId st) st).
  { rewrite (close_tab_run_active host st st []); [reflexivity|].
    apply setCurrentView_run_falsy. by rewrite (close_next_only _ _ Ht). }
  rewrite Hclosed, url_change_run. unfold state_of. cbn [fst snd].
  cbn [tabs set_defTabConfigs].
  rewrite !close_state_tabs, close_state_confs, close_state_current, Ht.
  assert (Hnil : filter_ne (currentViewId st) [currentViewId st] = []).
  { simpl. by rewrite strict_eq_refl. }
  rewrite Hnil. split_and!; try done.
  - by rewrite lookup_insert_eq.
  - eexists. unfold tabConfigs at 1. cbn [defTabConfigs set_defTabConfigs].
    rewrite lookup_insert_eq. split; [done|].
    rewrite merge_tab_lookup. by rewrite lookup_singleton_eq.
Qed.

Lemma url_change_after_closing_only_tab_witness :
  tabs one_tab = [currentViewId one_tab] ∧
  tabs (state_of (url_change (VStr "u")
          (state_of (close_tab electron (currentViewId one_tab) one_tab)))) = [].
Proof.
  assert (H : tabs one_tab = [currentViewId one_tab]) by (vm_compute; reflexivity).
  split; [exact H|].
  exact (proj1 (proj2 (proj2
    (url_change_after_closing_only_tab electron one_tab (VStr "u") H)))).
Defined.

(** X9. [switchTab] to an id that has a view: the call returns; the active id
    becomes that id and its view the current view; the view that was current,
    if any, is detached first, then the new one is attached, laid out under
    the control strip, announced to the panel ([active-update] when connected,
    then [fromMain]) and focused; order, metadata and surfaces are unchanged. *)
Theorem switchTab_switches (host : Host) (st : TabbedWindow) (id : jsid)
    (v : BrowserView) :
  truthy id = true →
  views_at st id = Some v →
  completed (switchTab host id st) = true ∧
  currentViewId (state_of (switchTab host id st)) = id ∧
  currentView (state_of (switchTab host id st)) = Some v ∧
  tabs (state_of (switchTab host id st)) = tabs st ∧
  tabConfigs (state_of (switchTab host id st)) = tabConfigs st ∧
  views (state_of (switchTab host id st)) = views st ∧
  trace_of (switchTab host id st) =
    remove_trace st
    ++ [AddBrowserView (Some (view_id v));
        SetBounds (view_id v)
          (mkBounds (win_contentHeight (win st) - controlHeight (options st))
             (win_contentWidth (win st)) 0 (controlHeight (options st)))]
    ++ reply_if st (ReplyActiveUpdate id)
    ++ [SendFromMain id; WcFocus (view_id v)].
Proof.
  intros Ht Hv. unfold switchTab.
  rewrite (setCurrentView_run_view host id v st Ht Hv).
  unfold completed, state_of, trace_of. cbn [fst snd].
  assert (Hcv : currentView (set_defCurrentViewId id st) = Some v).
  { by rewrite currentView_set_current. }
  split_and!; try done.
  unfold bounds_trace. rewrite Hcv. reflexivity.
Qed.

Lemma switchTab_switches_witness :
  truthy (JNum 1) = true ∧
  views_at two_tabs (JNum 1)
    = Some (mkBrowserView (mkWebContents 1 false "" false false true)) ∧
  currentViewId (state_of (switchTab electron (JNum 1) two_tabs)) = JNum 1 ∧
  take 2 (trace_of (switchTab electron (JNum 1) two_tabs))
    = [RemoveBrowserView (JNum 2); AddBrowserView (Some (JNum 1))].
Proof.
  assert (H1 : truthy (JNum 1) = true) by reflexivity.
  assert (H2 : views_at two_tabs (JNum 1)
    = Some (mkBrowserView (mkWebContents 1 false "" false false true)))
    by (vm_compute; reflexivity).
  destruct (switchTab_switches electron two_tabs (JNum 1) _ H1 H2)
    as (_ & Hc & _ & _ & _ & _ & Htr).
  split_and!; [exact H1|exact H2|exact Hc|].
  rewrite Htr. vm_compute. reflexivity.
Defined.

(** X10. The [act] command never touches the registry: whatever the name, the
    order, the metadata, the active id and the reply channel are unchanged; of
    [views] at most the active id's slot changes; and it does at most one
    thing, either one call of that name on the active web contents or one
    warning. It returns unless that one call throws, and then the error of
    the call is the error of the command and the object is as before. *)
Theorem webContentsAct_frame (host : Host) (st : TabbedWindow) (name : string) :
  (completed (webContentsAct host name st) = true ∨
   ∃ wc err, currentWebContents st = Some wc ∧
             wc_is_function host name = true ∧
             wc_call_error host name wc = Some err ∧
             webContentsAct host name st
               = (Thrown err, st, [WcCall (JNum (wc_id wc)) name])) ∧
  tabs (state_of (webContentsAct host name st)) = tabs st ∧
  tabConfigs (state_of (webContentsAct host name st)) = tabConfigs st ∧
  currentViewId (state_of (webContentsAct host name st)) = currentViewId st ∧
  ipc (state_of (webContentsAct host name st)) = ipc st ∧
  (∀ x, x ≠ currentViewId st →
     views (state_of (webContentsAct host name st)) !! x = views st !! x) ∧
  (trace_of (webContentsAct host name st) = [] ∨
   trace_of (webContentsAct host name st) = [LogWarn name] ∨
   ∃ wc, currentWebContents st = Some wc ∧
         trace_of (webContentsAct host name st) = [WcCall (JNum (wc_id wc)) name]).
Proof.
  rewrite webContentsAct_run.
  destruct (currentWebContents st) as [wc|] eqn:Hwc.
  - destruct (wc_is_function host name) eqn:Hf.
    + destruct (String.eqb name "reload" && String.eqb (wc_getURL wc) "").
      * unfold completed, state_of, trace_of. cbn [fst snd].
        split_and!; try done; by left.
      * destruct (wc_call_error host name wc) as [err|] eqn:Herr;
          unfold completed, state_of, trace_of; cbn [fst snd].
        -- split_and!; try done.
           ++ right. by exists wc, err.
           ++ right. right. by exists wc.
        -- split_and!; try done.
           ++ by left.
           ++ intros x Hx. simpl. by rewrite lookup_insert_ne.
           ++ right. right. by exists wc.
    + unfold completed, state_of, trace_of. cbn [fst snd].
      split_and!; try done; [by left|]. right. by left.
  - unfold completed, state_of, trace_of. cbn [fst snd].
    split_and!; try done; [by left|]. right. by left.
Qed.

(** ** Page events *)

Lemma tabConfigs_set v st : tabConfigs (set_defTabConfigs v st) = v.
Proof. reflexivity. Qed.

Lemma setTabConfig_then {A} id (kv : Tab) (r : A) st :
  (setTabConfig id kv ;;; ret r) st =
    (Done r,
     set_defTabConfigs (<[id := Some (merge_tab st id kv)]> (tabConfigs st)) st,
     reply_if st
       (ReplyTabsUpdate (<[id := Some (merge_tab st id kv)]> (tabConfigs st))
          (tabs st))).
Proof.
  eapply run_trace_eq.
  - run_step (apply setTabConfig_run). reflexivity.
  - by rewrite app_nil_r.
Qed.

(** X11. The loading flag of a tab follows the page: after [did-start-loading]
    the entry's [isLoading] is true, after a following [did-stop-loading] it
    is false, and then every field of the entry other than [isLoading] and the
    recomputed [canGoBack] and [canGoForward] is as before the two events;
    the entries of other ids, the order, the surfaces and the active selection
    are not touched. *)
Theorem page_loading_flag (st : TabbedWindow) (id : jsid) :
  (∃ t, tabConfigs (state_of (page_listener id DidStartLoading st)) !! id
          = Some (Some t) ∧
        t !! "isLoading" = Some (VBool true)) ∧
  (∃ t, tabConfigs (state_of (page_listener id DidStopLoading
                                (state_of (page_listener id DidStartLoading st))))
          !! id = Some (Some t) ∧
        t !! "isLoading" = Some (VBool false) ∧
        ∀ k, k ≠ "isLoading" → k ≠ "canGoBack" → k ≠ "canGoForward" →
             t !! k = default ∅ (mjoin (tabConfigs st !! id)) !! k) ∧
  (∀ x, x ≠ id →
     tabConfigs (state_of (page_listener id DidStopLoading
                             (state_of (page_listener id DidStartLoading st))))
       !! x = tabConfigs st !! x) ∧
  tabs (state_of (page_listener id DidStopLoading
                    (state_of (page_listener id DidStartLoading st)))) = tabs st ∧
  views (state_of (page_listener id DidStopLoading
                     (state_of (page_listener id DidStartLoading st)))) = views st ∧
  currentViewId (state_of (page_listener id DidStopLoading
                     (state_of (page_listener id DidStartLoading st))))
    = currentViewId st.
Proof.
  unfold page_listener. rewrite !setTabConfig_then.
  unfold state_of. cbn [fst snd]. rewrite !tabConfigs_set.
  split_and!; try done.
  - eexists. rewrite lookup_insert_eq. split; [done|].
    rewrite merge_tab_lookup. by rewrite lookup_singleton_eq.
  - eexists. rewrite lookup_insert_eq. split; [done|]. split.
    + rewrite merge_tab_lookup. by rewrite lookup_singleton_eq.
    + intros k Hk Hb Hf. rewrite merge_tab_lookup.
      rewrite lookup_singleton_ne by done. rewrite !decide_False by done.
      rewrite tabConfigs_set, lookup_insert_eq. cbn [mjoin option_join default].
      change (Datatypes.id ?x) with x. rewrite merge_tab_lookup.
      rewrite lookup_singleton_ne by done. by rewrite !decide_False.
  - intros x Hx. by rewrite !lookup_insert_ne.
Qed.

(** X12. Only a top-level navigation changes the address of a tab:
    [did-start-navigation] in a sub-frame does nothing at all, while in the
    main frame it sets both [url] and [href] of the entry to the new address,
    replacing whatever [url] held, and emits [url-updated] for that view;
    [will-redirect] does the same for any frame. *)
Theorem page_navigation_address (st : TabbedWindow) (id : jsid)
    (href : string) (isInPlace : bool) :
  page_listener id (DidStartNavigation href isInPlace false) st
    = (Done None, st, []) ∧
  fst (fst (page_listener id (DidStartNavigation href isInPlace true) st))
    = Done (Some (mkUrlUpdated id href)) ∧
  (∃ t, tabConfigs (state_of (page_listener id
                      (DidStartNavigation href isInPlace true) st)) !! id
          = Some (Some t) ∧
        t !! "url" = Some (VStr href) ∧ t !! "href" = Some (VStr href)) ∧
  page_listener id (WillRedirect href) st
    = page_listener id (DidStartNavigation href isInPlace true) st.
Proof.
  unfold page_listener. rewrite !setTabConfig_then.
  unfold state_of. cbn [fst snd]. split_and!; try done.
  eexists. rewrite tabConfigs_set, lookup_insert_eq. split; [done|].
  rewrite !merge_tab_lookup. split.
  - by rewrite lookup_insert_eq.
  - rewrite lookup_insert_ne by done. by rewrite lookup_singleton_eq.
Qed.

(** ** Windows opened by a page *)

(** X13. The window-open handler of a tab never lets the page open a window:
    it answers [deny] and opens the address as a new tab instead, which, for a
    non-zero id from the host, goes to the end of the order and becomes the
    active selection. *)
Theorem windowOpenHandler_denies (host : Host) (st : TabbedWindow) (fresh : Z)
    (url : string) :
  fresh ≠ 0%Z →
  fst (fst (windowOpenHandler host fresh url st)) = Done "deny" ∧
  tabs (state_of (windowOpenHandler host fresh url st)) = tabs st ++ [JNum fresh] ∧
  currentViewId (state_of (windowOpenHandler host fresh url st)) = JNum fresh.
Proof.
  intros Hid.
  assert (Hrun : windowOpenHandler host fresh url st
                 = (Done "deny", newTab_final st fresh (Some url) JUndefined,
                    newTab_trace st fresh (Some url) JUndefined ++ [])).
  { unfold windowOpenHandler. run_step (apply newTab_run_full). reflexivity. }
  rewrite Hrun. unfold state_of. cbn [fst snd].
  rewrite newTab_final_tabs, newTab_final_current.
  split_and!; [done|done|]. simpl. by destruct (Z.eqb_spec fresh 0).
Qed.

Lemma windowOpenHandler_denies_witness :
  3%Z ≠ 0%Z ∧
  tabs (state_of (windowOpenHandler electron 3 "https://y.test" two_tabs))
    = [JNum 1; JNum 2; JNum 3].
Proof.
  assert (H : 3%Z ≠ 0%Z) by lia.
  split; [exact H|].
  exact (proj1 (proj2 (windowOpenHandler_denies electron two_tabs 3
                         "https://y.test" H))).
Defined.



(** ** The window's [closed] listener *)

Lemma destroyView_views_at id st x :
  views_at (state_of (destroyView id st)) x
    = if decide (x = id) then None else views_at st x.
Proof.
  destruct (views_at st id) as [v|] eqn:Hv.
  - rewrite (destroyView_run_some id v st Hv). unfold state_of, views_at. simpl.
    destruct (decide (x = id)) as [->|Hne].
    + by rewrite lookup_insert_eq.
    + by rewrite lookup_insert_ne.
  - rewrite (destroyView_run_none id st Hv). unfold state_of. simpl.
    destruct (decide (x = id)) as [->|Hne]; done.
Qed.

Lemma destroyView_done id st :
  destroyView id st =
    (Done tt, state_of (destroyView id st),
     match views_at st id with Some v => destroy_trace v | None => [] end).
Proof.
  destruct (views_at st id) as [v|] eqn:Hv.
  - by rewrite (destroyView_run_some id v st Hv).
  - by rewrite (destroyView_run_none id st Hv).
Qed.

Lemma destroyView_frame id st :
  tabs (state_of (destroyView id st)) = tabs st ∧
  tabConfigs (state_of (destroyView id st)) = tabConfigs st ∧
  currentViewId (state_of (destroyView id st)) = currentViewId st.
Proof.
  destruct (views_at st id) as [v|] eqn:Hv.
  - by rewrite (destroyView_run_some id v st Hv).
  - by rewrite (destroyView_run_none id st Hv).
Qed.

Lemma forEach_destroyView_cons id rest st :
  forEach_destroyView (id :: rest) st =
    (fst (fst (forEach_destroyView rest (state_of (destroyView id st)))),
     state_of (forEach_destroyView rest (state_of (destroyView id st))),
     match views_at st id with Some v => destroy_trace v | None => [] end
     ++ trace_of (forEach_destroyView rest (state_of (destroyView id st)))).
Proof.
  simpl. unfold bind. rewrite destroyView_done.
  unfold state_of at 1. cbn [fst snd].
  by destruct (forEach_destroyView rest _) as [[o s] t].
Qed.

Lemma forEach_destroyView_spec ids : ∀ st,
  completed (forEach_destroyView ids st) = true ∧
  tabs (state_of (forEach_destroyView ids st)) = tabs st ∧
  tabConfigs (state_of (forEach_destroyView ids st)) = tabConfigs st ∧
  currentViewId (state_of (forEach_destroyView ids st)) = currentViewId st ∧
  (∀ x, views_at (state_of (forEach_destroyView ids st)) x
        = if decide (x ∈ ids) then None else views_at st x) ∧
  (∀ e, e ∈ trace_of (forEach_destroyView ids st) ↔
        ∃ x v, x ∈ ids ∧ views_at st x = Some v ∧
               wc_isDestroyed (webContents v) = false ∧ e = WcDestroy (view_id v)).
Proof.
  induction ids as [|id rest IH]; intros st.
  - split_and!; try done.
    intros e. split; [by intros ?%elem_of_nil|].
    by intros (x & v & ?%elem_of_nil & _).
  - rewrite forEach_destroyView_cons.
    specialize (IH (state_of (destroyView id st))).
    pose proof (destroyView_views_at id st) as Hdv.
    destruct (destroyView_frame id st) as (Ht1 & Hconf1 & Hcur1).
    set (s1 := state_of (destroyView id st)) in *.
    destruct (forEach_destroyView rest s1) as [[o s'] t].
    unfold completed, state_of, trace_of in IH |- *. cbn [fst snd] in IH |- *.
    destruct IH as (Hc & Ht & Hconf & Hcur & Hviews & Htr).
    split_and!.
    + exact Hc.
    + by rewrite Ht.
    + by rewrite Hconf.
    + by rewrite Hcur.
    + intros x. rewrite Hviews, Hdv.
      destruct (decide (x ∈ rest)) as [Hin|Hnin];
        destruct (decide (x = id)) as [Heq|Hne];
        destruct (decide (x ∈ id :: rest)) as [Hin2|Hnin2];
        try done; exfalso.
      * apply Hnin2. by right.
      * apply Hnin2. by right.
      * apply Hnin2. subst. by left.
      * apply elem_of_cons in Hin2. tauto.
    + intros e. rewrite elem_of_app, Htr. split.
      * intros [Hhere|(x & v & Hx & Hv & Hd & ->)].
        -- destruct (views_at st id) as [v|] eqn:Hv; [|by apply elem_of_nil in Hhere].
           unfold destroy_trace in Hhere.
           destruct (wc_isDestroyed (webContents v)) eqn:Hd;
             [by apply elem_of_nil in Hhere|].
           apply list_elem_of_singleton in Hhere as ->.
           exists id, v. split_and!; [by left|done..].
        -- rewrite Hdv in Hv.
           destruct (decide (x = id)); [done|].
           exists x, v. split_and!; [by right|done..].
      * intros (x & v & Hx & Hv & Hd & ->).
        destruct (decide (x = id)) as [->|Hne].
        -- left. rewrite Hv. unfold destroy_trace. rewrite Hd. by left.
        -- right. exists x, v. apply elem_of_cons in Hx as [?|Hx]; [done|].
           split_and!; try done.
           rewrite Hdv. by rewrite decide_False.
Qed.

(** X15. When the window is closed no view of a tab is left behind: every id
    in the order ends with no view object, and the web contents of each view
    that was not destroyed yet is destroyed (and nothing else is); views of
    ids outside the order, the order itself and the metadata are left as they
    are; the [closed] event comes last. *)
Theorem on_closed_releases_views (owner : Z) (reg : IpcMain) (st : TabbedWindow) :
  tabs (snd (fst (on_closed owner reg st))) = tabs st ∧
  tabConfigs (snd (fst (on_closed owner reg st))) = tabConfigs st ∧
  (∀ x, x ∈ tabs st → views_at (snd (fst (on_closed owner reg st))) x = None) ∧
  (∀ x, x ∉ tabs st →
        views_at (snd (fst (on_closed owner reg st))) x = views_at st x) ∧
  (∀ e, OfView e ∈ snd (on_closed owner reg st) ↔
        ∃ x v, x ∈ tabs st ∧ views_at st x = Some v ∧
               wc_isDestroyed (webContents v) = false ∧
               e = WcDestroy (view_id v)) ∧
  last (snd (on_closed owner reg st)) = Some EmitClosed.
Proof.
  destruct (forEach_destroyView_spec (tabs st) st)
    as (_ & Ht & Hconf & _ & Hviews & Htr).
  unfold on_closed. cbn [fst snd]. split_and!.
  - exact Ht.
  - exact Hconf.
  - intros x Hx. rewrite Hviews. by rewrite decide_True.
  - intros x Hx. rewrite Hviews. by rewrite decide_False.
  - intros e. rewrite <- Htr. rewrite !elem_of_app. split.
    + intros [Hin|Hin].
      * apply list_elem_of_fmap in Hin as (e' & He & Hin). by simplify_eq.
      * apply list_elem_of_singleton in Hin. discriminate Hin.
    + intros Hin. left. by apply list_elem_of_fmap_2.
  - apply last_snoc.
Qed.

Lemma on_closed_releases_views_witness :
  JNum 1 ∈ tabs two_tabs ∧
  views_at (snd (fst (on_closed 1 [] two_tabs))) (JNum 1) = None ∧
  OfView (WcDestroy (JNum 2)) ∈ snd (on_closed 1 [] two_tabs).
Proof.
  assert (H1 : JNum 1 ∈ tabs two_tabs).
  { change (tabs two_tabs) with [JNum 1; JNum 2]. by left. }
  assert (H2 : JNum 2 ∈ tabs two_tabs).
  { change (tabs two_tabs) with [JNum 1; JNum 2]. right. by left. }
  destruct (on_closed_releases_views 1 [] two_tabs) as (_ & _ & Hnone & _ & Hd & _).
  split_and!; [exact H1|exact (Hnone _ H1)|].
  apply Hd. exists (JNum 2), (mkBrowserView (mkWebContents 2 false "" false false true)).
  split_and!; [exact H2|vm_compute; reflexivity|reflexivity|reflexivity].
Defined.

Lemma remove_first_absent x reg : x ∉ reg → remove_first x reg = reg.
Proof.
  induction reg as [|y rest IH]; intros Hx; [done|]. simpl.
  apply not_elem_of_cons in Hx as [Hne Hx].
  rewrite decide_False by done. by rewrite IH.
Qed.

Lemma ipcMain_removeListener_absent name f reg :
  (name, f) ∉ reg → ipcMain_removeListener name f reg = reg.
Proof.
  intros Hx. unfold ipcMain_removeListener.
  rewrite remove_first_absent; [apply reverse_involutive|].
  by rewrite elem_of_reverse.
Qed.

Lemma elem_of_setChannel_listen owner reg x :
  x ∈ setChannel_listen owner reg
  ↔ x ∈ reg ∨ ∃ name, name ∈ channel_names ∧ x = (name, ChannelWrapper owner name).
Proof.
  unfold setChannel_listen. generalize channel_names. intros names.
  revert reg. induction names as [|n names IH]; intros reg; simpl.
  - split; [by left|]. intros [?|(name & ?%elem_of_nil & _)]; done.
  - rewrite IH. unfold ipcMain_on. rewrite elem_of_app, list_elem_of_singleton.
    split.
    + intros [[? | ->] | (name & Hn & ->)]; [by left|right..].
      * exists n. split; [by left|done].
      * exists name. split; [by right|done].
    + intros [? | (name & [-> | Hn]%elem_of_cons & ->)].
      * left. by left.
      * left. by right.
      * right. by exists name.
Qed.

(** X21. Closing the window does not unregister the channel listeners:
    [setChannel] registers a wrapper around each channel entry, while the
    [closed] listener calls [removeListener] with the entries themselves, so
    for a registry in which no bare entry is registered the listeners of
    [ipcMain] are exactly the same after [closed] as before, and the six
    wrappers of the window are still among them. *)
Theorem on_closed_keeps_listeners (owner : Z) (reg : IpcMain) (st : TabbedWindow) :
  (∀ c o n, (c, ChannelEntry o n) ∉ reg) →
  fst (fst (on_closed owner (setChannel_listen owner reg) st))
    = setChannel_listen owner reg ∧
  ∀ name, name ∈ channel_names →
    (name, ChannelWrapper owner name)
      ∈ fst (fst (on_closed owner (setChannel_listen owner reg) st)).
Proof.
  intros Hreg.
  assert (Hclean : ∀ c o n, (c, ChannelEntry o n) ∉ setChannel_listen owner reg).
  { intros c o n [Hin|(name & _ & Heq)]%elem_of_setChannel_listen.
    - by apply (Hreg c o n).
    - discriminate Heq. }
  assert (Hsame : fst (fst (on_closed owner (setChannel_listen owner reg) st))
                  = setChannel_listen owner reg).
  { unfold on_closed. cbn [fst]. generalize channel_names. intros names.
    induction names as [|n names IH] using rev_ind; [done|].
    rewrite foldl_app. simpl. rewrite IH.
    by apply ipcMain_removeListener_absent. }
  split; [exact Hsame|].
  intros name Hn. rewrite Hsame. apply elem_of_setChannel_listen. right. eauto.
Qed.

Lemma on_closed_keeps_listeners_witness :
  (∀ c o n, (c, ChannelEntry o n) ∉ ([] : IpcMain)) ∧
  ("close-tab", ChannelWrapper 1 "close-tab")
    ∈ fst (fst (on_closed 1 (setChannel_listen 1 []) two_tabs)).
Proof.
  assert (H : ∀ c o n, (c, ChannelEntry o n) ∉ ([] : IpcMain)).
  { intros c o n. apply not_elem_of_nil. }
  split; [exact H|].
  apply (proj2 (on_closed_keeps_listeners 1 [] two_tabs H)).
  unfold channel_names. right. by left.
Defined.

(** ** What sequences of opens and closes keep *)

Lemma NoDup_split_middle (l1 l2 : list jsid) x :
  NoDup (l1 ++ x :: l2) → (x ∉ l1) ∧ (x ∉ l2).
Proof.
  intros Hnd. apply NoDup_app in Hnd as (_ & Hd & Hnd2).
  apply NoDup_cons in Hnd2 as [Hn2 _]. split; [|done].
  intros Hin. apply (Hd _ Hin). by left.
Qed.

Lemma select_trace_quiet host id v st :
  truthy id = true → views_at st id = Some v →
  Forall emits_no_tab_event (trace_of (setCurrentView host id st)).
Proof.
  intros Ht Hv. rewrite (setCurrentView_run_view host id v st Ht Hv).
  unfold trace_of, remove_trace, bounds_trace, reply_if. cbn [snd].
  repeat apply Forall_app_2.
  - destruct (currentView st); repeat constructor.
  - repeat constructor.
  - destruct (currentView _); repeat constructor.
  - destruct (bool_decide _); repeat constructor.
  - repeat constructor.
Qed.

(** The [close-tab] handler in a registry that satisfies the invariant: it
    returns; before dropping the id it moved the active selection to a
    neighbour when the id was active with one, and did nothing otherwise. *)
Lemma close_tab_selection host st id :
  NoDup (tabs st) →
  (∀ x, x ∈ tabs st → truthy x = true ∧ live st x) →
  tabs st = [] ∨ currentViewId st ∈ tabs st →
  ∃ s' tr,
    close_tab host id st = (Done tt, close_state id s', tr ++ close_trace id s') ∧
    tabs s' = tabs st ∧ views s' = views st ∧ tabConfigs s' = tabConfigs st ∧
    ipc s' = ipc st ∧
    Forall emits_no_tab_event tr ∧
    (filter_ne id (tabs st) = [] ∨
     currentViewId s' ∈ tabs st ∧ currentViewId s' ≠ id).
Proof.
  intros Hnd Hlive Hcur.
  destruct (decide (id = currentViewId st)) as [->|Hne].
  - assert (Hstay : close_next (currentViewId st) st = JUndefined →
      filter_ne (currentViewId st) (tabs st) = [] →
      ∃ s' tr,
        close_tab host (currentViewId st) st
          = (Done tt, close_state (currentViewId st) s',
             tr ++ close_trace (currentViewId st) s') ∧
        tabs s' = tabs st ∧ views s' = views st ∧ tabConfigs s' = tabConfigs st ∧
        ipc s' = ipc st ∧ Forall emits_no_tab_event tr ∧
        (filter_ne (currentViewId st) (tabs st) = [] ∨
         currentViewId s' ∈ tabs st ∧ currentViewId s' ≠ currentViewId st)).
    { intros Hu Hnil. exists st, []. split_and!; try done; [|by left].
      apply close_tab_run_active. apply setCurrentView_run_falsy.
      by rewrite Hu. }
    assert (Hmove : ∀ y, close_next (currentViewId st) st = y → y ∈ tabs st →
      y ≠ currentViewId st →
      ∃ s' tr,
        close_tab host (currentViewId st) st
          = (Done tt, close_state (currentViewId st) s',
             tr ++ close_trace (currentViewId st) s') ∧
        tabs s' = tabs st ∧ views s' = views st ∧ tabConfigs s' = tabConfigs st ∧
        ipc s' = ipc st ∧ Forall emits_no_tab_event tr ∧
        (filter_ne (currentViewId st) (tabs st) = [] ∨
         currentViewId s' ∈ tabs st ∧ currentViewId s' ≠ currentViewId st)).
    { intros y Hy Hin Hney. destruct (Hlive y Hin) as (Hty & v & Hv & _).
      exists (set_defCurrentViewId y st),
             (trace_of (setCurrentView host y st)).
      split_and!; try done.
      - apply close_tab_run_active. rewrite Hy.
        by rewrite (setCurrentView_run_view host y v st Hty Hv).
      - by apply (select_trace_quiet host y v).
      - by right. }
    destruct Hcur as [Hnil|Hin].
    + apply Hstay; [|by rewrite Hnil].
      unfold close_next. by rewrite Hnil.
    + apply list_elem_of_split in Hin as (l1 & l2 & Ht).
      pose proof Hnd as Hnd'. rewrite Ht in Hnd'.
      apply NoDup_split_middle in Hnd' as [Hn1 Hn2].
      destruct l2 as [|y l2].
      * destruct (last l1) as [y|] eqn:Hlast.
        -- apply last_Some in Hlast as [l1' ->].
           apply (Hmove y).
           ++ by apply (close_next_before l1').
           ++ rewrite Ht, !elem_of_app, !list_elem_of_singleton. tauto.
           ++ intros ->. apply Hn1. rewrite elem_of_app, list_elem_of_singleton.
              tauto.
        -- apply last_None in Hlast as ->. simpl in Ht.
           apply Hstay; [by apply close_next_only|].
           rewrite Ht. simpl. by rewrite strict_eq_refl.
      * apply (Hmove y).
        -- by apply (close_next_after l1 _ y l2).
        -- rewrite Ht, elem_of_app, !elem_of_cons. tauto.
        -- intros ->. apply Hn2. by left.
  - exists st, []. split_and!; try done.
    + by apply close_tab_run_inactive.
    + destruct Hcur as [Hnil|Hin]; [left; by rewrite Hnil|right; by split].
Qed.

Lemma newTab_selection_ok host used open st id url appendTo :
  registry_ok used open st → selection_ok used st → id ∉ used → id ≠ 0%Z →
  selection_ok (used ++ [id]) (state_of (newTab host id url appendTo st)).
Proof.
  intros (Hnd & Hopen & Hconf & Hlive) (Htruthy & Hcur & Hviews & Htomb) Hfresh Hid.
  rewrite newTab_run_full. unfold state_of. cbn [fst snd].
  assert (Ht : truthy (JNum id) = true).
  { simpl. by destruct (Z.eqb_spec id 0). }
  unfold selection_ok.
  rewrite newTab_final_tabs, newTab_final_current, newTab_final_confs, Ht.
  split_and!.
  - intros x [->|Hx]%elem_of_newTab_tabs; [done|by apply Htruthy].
  - right. apply elem_of_newTab_tabs. by left.
  - intros x Hx. apply elem_of_newTab_tabs.
    change (views_at (newTab_final st id url appendTo) x)
      with (views_at (newTab_loaded st id url appendTo) x) in Hx.
    unfold newTab_loaded in Hx.
    destruct (loadURL_frame (or_string url (blankPage (options st)))
                (newTab_selected st id appendTo))
      as (_ & _ & _ & _ & _ & _ & Hv).
    assert (Hsel : is_Some (views_at (newTab_selected st id appendTo) x)).
    { destruct (Hv x) as [Heq|(cv & Hcv & _)]; [by rewrite <- Heq|eauto]. }
    unfold newTab_selected in Hsel. rewrite Ht in Hsel.
    change (views_at (set_defCurrentViewId _ ?s) x) with (views_at s x) in Hsel.
    rewrite newTab_registered_views_at in Hsel.
    destruct (decide (x = JNum id)); [by left|right; by apply Hviews].
  - intros n Hn Hnot. unfold newTab_confs.
    assert (Hne : n ≠ id).
    { intros ->. apply Hnot. apply elem_of_newTab_tabs. by left. }
    apply elem_of_app in Hn as [Hn|Hn%list_elem_of_singleton]; [|done].
    rewrite lookup_insert_ne by congruence. apply Htomb; [done|].
    intros Hin. apply Hnot. apply elem_of_newTab_tabs. by right.
Qed.

Lemma close_tab_selection_ok host used open st id :
  registry_ok used open st → selection_ok used st →
  selection_ok used (state_of (close_tab host id st)).
Proof.
  intros (Hnd & Hopen & Hconf & Hlive) (Htruthy & Hcur & Hviews & Htomb).
  destruct (close_tab_selection host st id Hnd)
    as (s' & tr & -> & Ht & Hv & Hc & _ & _ & Hsel); [|done|].
  { intros x Hx. split; [by apply Htruthy|by apply Hlive]. }
  unfold state_of. cbn [fst snd]. unfold selection_ok.
  rewrite close_state_tabs, close_state_confs, close_state_current, Ht, Hc.
  split_and!.
  - intros x [Hx _]%elem_of_filter_ne. by apply Htruthy.
  - destruct Hsel as [Hnil|[Hin Hne]]; [by left|right].
    by apply elem_of_filter_ne.
  - intros x Hx. rewrite close_state_views_at in Hx.
    destruct (decide (x = id)) as [->|Hne]; [by destruct Hx|].
    apply elem_of_filter_ne. split; [|done]. apply Hviews.
    unfold views_at in *. by rewrite <- Hv.
  - intros n Hn Hnot. destruct (decide (JNum n = id)) as [<-|Hne].
    + by rewrite lookup_insert_eq.
    + rewrite lookup_insert_ne by done. apply Htomb; [done|].
      intros Hin. apply Hnot. by apply elem_of_filter_ne.
Qed.

Lemma run_ops_selection_ok host opts w e ops :
  NoDup (opened_ids ops) → (0%Z ∉ opened_ids ops) →
  selection_ok (opened_ids ops) (run_ops host ops (set_ipc e (constructor opts w))).
Proof.
  induction ops as [|op ops IH] using rev_ind; intros Hnd Hz.
  - unfold selection_ok. simpl. split_and!.
    + by intros x ?%elem_of_nil.
    + by left.
    + intros x [v Hv]. unfold views_at in Hv. simpl in Hv.
      by rewrite lookup_empty in Hv.
    + by intros n ?%elem_of_nil.
  - pose proof (run_ops_registry_ok host opts w e ops) as Hreg.
    rewrite opened_ids_snoc in Hnd, Hz |- *.
    unfold run_ops in *. rewrite foldl_app. simpl.
    destruct op as [id url appendTo|id].
    + apply NoDup_app in Hnd as (Hnd & Hfresh & _).
      apply not_elem_of_app in Hz as [Hz Hid].
      apply (newTab_selection_ok host _ (still_open ops)).
      * by apply Hreg.
      * by apply IH.
      * intros Hin. apply (Hfresh _ Hin). by apply list_elem_of_singleton.
      * intros ->. apply Hid. by left.
    + rewrite app_nil_r in Hnd, Hz |- *.
      apply (close_tab_selection_ok host _ (still_open ops)).
      * by apply Hreg.
      * by apply IH.
Qed.

(** X16. After any sequence of opens and closes from the empty registry, with
    distinct non-zero ids from the host: the active id is one of the ids in the
    order, unless the order is empty; and when the order is not empty the
    current view is the live surface of that id. *)
Theorem active_selection_in_order (host : Host) (opts : Options)
    (w : BrowserWindow) (e : option IpcMainEvent) (ops : list RegistryOp) :
  NoDup (opened_ids ops) → (0%Z ∉ opened_ids ops) →
  (tabs (run_ops host ops (set_ipc e (constructor opts w))) = [] ∨
   currentViewId (run_ops host ops (set_ipc e (constructor opts w)))
     ∈ tabs (run_ops host ops (set_ipc e (constructor opts w)))) ∧
  (tabs (run_ops host ops (set_ipc e (constructor opts w))) ≠ [] →
   ∃ v, currentView (run_ops host ops (set_ipc e (constructor opts w))) = Some v ∧
        view_id v = currentViewId (run_ops host ops (set_ipc e (constructor opts w))) ∧
        wc_isDestroyed (webContents v) = false).
Proof.
  intros Hnd Hz.
  destruct (run_ops_selection_ok host opts w e ops Hnd Hz)
    as (Htruthy & Hcur & _ & _).
  destruct (run_ops_registry_ok host opts w e ops Hnd) as (_ & _ & _ & Hlive).
  split; [exact Hcur|]. intros Hne.
  destruct Hcur as [Hnil|Hin]; [done|].
  destruct (Hlive _ Hin) as ((v & Hv & Hid & Hd) & _).
  exists v. unfold currentView. by rewrite (Htruthy _ Hin).
Qed.

Lemma sample_ops_fresh : NoDup (opened_ids sample_ops) ∧ (0%Z ∉ opened_ids sample_ops).
Proof.
  change (opened_ids sample_ops) with [1%Z; 2%Z; 3%Z]. split.
  - apply (bool_decide_unpack _). vm_compute. exact I.
  - rewrite !not_elem_of_cons. split_and!; [lia..|apply not_elem_of_nil].
Defined.

Lemma active_selection_in_order_witness :
  NoDup (opened_ids sample_ops) ∧ (0%Z ∉ opened_ids sample_ops) ∧
  (tabs (run_ops electron sample_ops (set_ipc None (constructor opts0 win0))) = [] ∨
   currentViewId (run_ops electron sample_ops (set_ipc None (constructor opts0 win0)))
     ∈ tabs (run_ops electron sample_ops (set_ipc None (constructor opts0 win0)))).
Proof.
  destruct sample_ops_fresh as [H1 H2].
  split_and!; [exact H1|exact H2|].
  exact (proj1 (active_selection_in_order electron opts0 win0 None sample_ops H1 H2)).
Defined.

(** X17. After any sequence of opens and closes from the empty registry, with
    distinct non-zero ids from the host, no surface is left behind and no
    entry is ever dropped: [views] holds a view object exactly for the ids in
    the order, and every id that was handed out and is no longer in the order
    has no view object and keeps a [null] entry in the metadata mapping. *)
Theorem closed_tabs_released (host : Host) (opts : Options)
    (w : BrowserWindow) (e : option IpcMainEvent) (ops : list RegistryOp) :
  NoDup (opened_ids ops) → (0%Z ∉ opened_ids ops) →
  (∀ x, is_Some (views_at (run_ops host ops (set_ipc e (constructor opts w))) x)
        ↔ x ∈ tabs (run_ops host ops (set_ipc e (constructor opts w)))) ∧
  (∀ n, n ∈ opened_ids ops →
        JNum n ∉ tabs (run_ops host ops (set_ipc e (constructor opts w))) →
        views_at (run_ops host ops (set_ipc e (constructor opts w))) (JNum n) = None ∧
        tabConfigs (run_ops host ops (set_ipc e (constructor opts w))) !! JNum n
          = Some None).
Proof.
  intros Hnd Hz.
  destruct (run_ops_selection_ok host opts w e ops Hnd Hz)
    as (_ & _ & Hviews & Htomb).
  destruct (run_ops_registry_ok host opts w e ops Hnd) as (_ & _ & _ & Hlive).
  split.
  - intros x. split; [apply Hviews|].
    intros Hin. destruct (Hlive _ Hin) as ((v & Hv & _) & _). eauto.
  - intros n Hn Hnot. split; [|by apply Htomb].
    destruct (views_at _ (JNum n)) eqn:Hv; [|done].
    exfalso. apply Hnot. apply Hviews. by rewrite Hv.
Qed.

Lemma closed_tabs_released_witness :
  NoDup (opened_ids sample_ops) ∧ (0%Z ∉ opened_ids sample_ops) ∧
  views_at (run_ops electron sample_ops (set_ipc None (constructor opts0 win0)))
    (JNum 2) = None ∧
  tabConfigs (run_ops electron sample_ops (set_ipc None (constructor opts0 win0)))
    !! JNum 2 = Some None.
Proof.
  destruct sample_ops_fresh as [H1 H2].
  split_and!; [exact H1|exact H2|..];
    refine (_ (proj2 (closed_tabs_released electron opts0 win0 None sample_ops H1 H2)
                 2%Z _ _)); try tauto.
  - change (opened_ids sample_ops) with [1%Z; 2%Z; 3%Z]. right. by left.
  - change (tabs (run_ops electron sample_ops (set_ipc None (constructor opts0 win0))))
      with [JNum 1; JNum 3].
    rewrite !not_elem_of_cons. split_and!; [congruence..|apply not_elem_of_nil].
  - change (opened_ids sample_ops) with [1%Z; 2%Z; 3%Z]. right. by left.
  - change (tabs (run_ops electron sample_ops (set_ipc None (constructor opts0 win0))))
      with [JNum 1; JNum 3].
    rewrite !not_elem_of_cons. split_and!; [congruence..|apply not_elem_of_nil].
Defined.

(** ** The addon's counter *)

Lemma quiet_count n tr :
  Forall emits_no_tab_event tr → tabItemCount_after n tr = n.
Proof.
  unfold tabItemCount_after. intros H. revert n.
  induction H as [|e tr He _ IH]; intros n; [done|].
  simpl. rewrite IH. by destruct e.
Qed.

Lemma reply_if_quiet st e :
  emits_no_tab_event e → Forall emits_no_tab_event (reply_if st e).
Proof. intros He. unfold reply_if. destruct (bool_decide _); by repeat constructor. Qed.

Lemma newTab_select_trace_quiet st id appendTo :
  Forall emits_no_tab_event (newTab_select_trace st id appendTo).
Proof.
  unfold newTab_select_trace, remove_trace, bounds_trace.
  destruct (truthy (JNum id)); [|constructor].
  repeat apply Forall_app_2.
  - destruct (currentView _); repeat constructor.
  - repeat constructor.
  - destruct (currentView _); repeat constructor.
  - by apply reply_if_quiet.
  - repeat constructor.
Qed.

Lemma loadURL_trace_quiet url st :
  Forall emits_no_tab_event (trace_of (loadURL url st)).
Proof.
  rewrite loadURL_run. destruct (currentView st) as [cv|]; [|constructor].
  destruct (String.eqb url ""); [constructor|].
  destruct (wc_marks (webContents cv)); [repeat constructor|].
  unfold trace_of, bounds_trace. cbn [snd]. apply Forall_app_2.
  - repeat constructor.
  - destruct (currentView _); repeat constructor.
Qed.

Lemma close_trace_count n id s :
  tabItemCount_after n (close_trace id s) = (n - 1)%Z.
Proof.
  unfold close_trace. rewrite !tabItemCount_after_app.
  rewrite (quiet_count n) by by apply reply_if_quiet.
  rewrite (quiet_count n).
  - reflexivity.
  - destruct (views_at s id) as [v|]; [|constructor].
    unfold destroy_trace. destruct (wc_isDestroyed _); repeat constructor.
Qed.

Lemma newTab_count host n id url appendTo st :
  tabItemCount_after n (trace_of (newTab host id url appendTo st)) = (n + 1)%Z.
Proof.
  rewrite newTab_run_full. unfold trace_of. cbn [snd]. unfold newTab_trace.
  rewrite !tabItemCount_after_app.
  repeat (rewrite (quiet_count n);
          [|first [apply newTab_select_trace_quiet
                  |apply loadURL_trace_quiet
                  |by apply reply_if_quiet
                  |by repeat constructor]]).
  reflexivity.
Qed.

Lemma length_newTab_tabs st id appendTo :
  length (newTab_tabs st id appendTo) = S (length (tabs st)).
Proof.
  unfold newTab_tabs. destruct (truthy appendTo).
  - unfold splice_insert. set (k := Z.to_nat _).
    rewrite length_app. simpl.
    rewrite <- (take_drop k (tabs st)) at 3. rewrite length_app. lia.
  - rewrite length_app. simpl. lia.
Qed.

Lemma length_filter_ne_present id (l : list jsid) :
  NoDup l → id ∈ l → S (length (filter_ne id l)) = length l.
Proof.
  intros Hnd (l1 & l2 & ->)%list_elem_of_split.
  destruct (NoDup_split_middle _ _ _ Hnd) as [H1 H2].
  rewrite filter_ne_middle by done. rewrite !length_app. simpl. lia.
Qed.

Lemma ops_count host ops : ∀ used open st n,
  registry_ok used open st →
  NoDup (used ++ opened_ids ops) →
  closes_open open ops = true →
  tabItemCount_after n (ops_trace host ops st)
    = (n + Z.of_nat (length (tabs (run_ops host ops st)))
         - Z.of_nat (length (tabs st)))%Z.
Proof.
  induction ops as [|op ops IH]; intros used open st n Hreg Hnd Hclose.
  - simpl. unfold tabItemCount_after. simpl. lia.
  - simpl ops_trace. rewrite tabItemCount_after_app.
    change (run_ops host (op :: ops) st) with (run_ops host ops (apply_op host st op)).
    destruct op as [id url appendTo|id]; simpl in Hnd, Hclose |- *.
    + unfold opened_ids in Hnd. simpl in Hnd. fold (opened_ids ops) in Hnd.
      assert (Hfresh : id ∉ used).
      { apply NoDup_app in Hnd as (_ & Hd & _). intros Hin.
        apply (Hd _ Hin). by left. }
      rewrite newTab_count.
      rewrite (IH (used ++ [id]) (JNum id :: open)).
      * rewrite newTab_run_full. unfold state_of at 2. cbn [fst snd].
        rewrite newTab_final_tabs, length_newTab_tabs. lia.
      * by apply newTab_preserves.
      * by rewrite <- app_assoc.
      * done.
    + apply andb_prop in Hclose as [Hin Hclose].
      apply bool_decide_eq_true in Hin.
      destruct Hreg as (Hndt & Hopen & Hconf & Hlive).
      assert (Hret := close_tab_returns host st id
                        (λ x Hx, proj1 (Hlive x Hx))).
      destruct Hret as (s' & tr & Hrun & Ht & _ & _).
      assert (Hcount : tabItemCount_after n (trace_of (close_tab host id st))
                       = (n - 1)%Z).
      { destruct (decide (id = currentViewId st)) as [->|Hne].
        - destruct (truthy (close_next (currentViewId st) st)) eqn:Htr.
          + destruct (close_next_elem (currentViewId st) st) as [Hu|Hin'].
            { rewrite Hu in Htr. discriminate Htr. }
            destruct (Hlive _ Hin') as ((v & Hv & _) & _).
            rewrite (close_tab_run_active host st _ _
                       (setCurrentView_run_view host _ v st Htr Hv)).
            unfold trace_of. cbn [snd]. rewrite tabItemCount_after_app.
            rewrite close_trace_count. f_equal.
            apply quiet_count.
            pose proof (select_trace_quiet host _ v st Htr Hv) as Hq.
            by rewrite (setCurrentView_run_view host _ v st Htr Hv) in Hq.
          + rewrite (close_tab_run_active host st st []
                       (setCurrentView_run_falsy host _ st Htr)).
            unfold trace_of. cbn [snd app]. apply close_trace_count.
        - rewrite close_tab_run_inactive by done. apply close_trace_count. }
      rewrite Hcount.
      rewrite (IH used (filter_ne id open)).
      * rewrite Hrun. unfold state_of at 2. cbn [fst snd].
        rewrite close_state_tabs, Ht.
        assert (Hlen := length_filter_ne_present id (tabs st) Hndt
                          (proj2 (Hopen id) Hin)).
        lia.
      * by apply close_tab_preserves.
      * unfold opened_ids in Hnd. simpl in Hnd. exact Hnd.
      * done.
Qed.

(** X18. The addon's tab counter, which goes up on [new-tab] and down on
    [close-tab], equals the number of tabs in the order after any sequence of
    opens and closes from the empty registry in which the host's ids are
    distinct and every close names a tab that is open at that point. *)
Theorem tabItemCount_counts_tabs (host : Host) (opts : Options)
    (w : BrowserWindow) (e : option IpcMainEvent) (ops : list RegistryOp) :
  NoDup (opened_ids ops) →
  closes_open [] ops = true →
  tabItemCount_after 0 (ops_trace host ops (set_ipc e (constructor opts w)))
    = Z.of_nat (length (tabs (run_ops host ops (set_ipc e (constructor opts w))))).
Proof.
  intros Hnd Hclose.
  rewrite (ops_count host ops [] [] _ 0%Z); [simpl; lia| |done|done].
  apply (run_ops_registry_ok host opts w e []). constructor.
Qed.

Lemma tabItemCount_counts_tabs_witness :
  NoDup (opened_ids sample_ops) ∧
  closes_open [] sample_ops = true ∧
  tabItemCount_after 0
    (ops_trace electron sample_ops (set_ipc None (constructor opts0 win0)))
    = 2%Z.
Proof.
  assert (H1 : NoDup (opened_ids sample_ops)) by exact (proj1 sample_ops_fresh).
  assert (H2 : closes_open [] sample_ops = true) by (vm_compute; reflexivity).
  split_and!; [exact H1|exact H2|].
  rewrite (tabItemCount_counts_tabs electron opts0 win0 None sample_ops H1 H2).
  vm_compute. reflexivity.
Defined.

(** X19. The [close-tab] command counts down even when it closes nothing: for
    an id that is not in the order and is not the active id, the order is
    unchanged and the addon's counter still drops by one, so the counter can
    fall below the number of tabs. *)
Theorem tabItemCount_drops_on_unknown_close (host : Host) (st : TabbedWindow)
    (id : jsid) (n : Z) :
  id ∉ tabs st → id ≠ currentViewId st →
  tabs (state_of (close_tab host id st)) = tabs st ∧
  tabItemCount_after n (trace_of (close_tab host id st)) = (n - 1)%Z.
Proof.
  intros Hin Hne. rewrite close_tab_run_inactive by done.
  unfold state_of, trace_of. cbn [fst snd]. split.
  - rewrite close_state_tabs. by apply filter_ne_absent.
  - apply close_trace_count.
Qed.

Lemma tabItemCount_drops_on_unknown_close_witness :
  (JNum 9 ∉ tabs (constructor opts0 win0)) ∧
  JNum 9 ≠ currentViewId (constructor opts0 win0) ∧
  tabs (state_of (close_tab electron (JNum 9) (constructor opts0 win0))) = [] ∧
  tabItemCount_after 0
    (trace_of (close_tab electron (JNum 9) (constructor opts0 win0))) = (-1)%Z.
Proof.
  assert (H1 : JNum 9 ∉ tabs (constructor opts0 win0)) by apply not_elem_of_nil.
  assert (H2 : JNum 9 ≠ currentViewId (constructor opts0 win0)) by discriminate.
  destruct (tabItemCount_drops_on_unknown_close electron (constructor opts0 win0)
              (JNum 9) 0 H1 H2) as [Ht Hc].
  split_and!; [exact H1|exact H2|exact Ht|exact Hc].
Defined.

(** ** Updates of a tab's metadata in sequence *)

Lemma live_flag_set_confs v st id f :
  live_flag (set_defTabConfigs v st) id f = live_flag st id f.
Proof. reflexivity. Qed.

(** X20. Repeating [setTabConfig] with the same fields leaves the metadata
    mapping as the first call made it. Of two updates of the same id in a row
    the later one wins on the fields it carries, and the fields that only the
    earlier one carried are kept, [canGoBack] and [canGoForward] apart, which
    every call recomputes. *)
Theorem setTabConfig_in_sequence (st : TabbedWindow) (id : jsid) (kv1 kv2 : Tab) :
  tabConfigs (state_of (setTabConfig id kv1 (state_of (setTabConfig id kv1 st))))
    = tabConfigs (state_of (setTabConfig id kv1 st)) ∧
  ∃ t, tabConfigs (state_of (setTabConfig id kv2 (state_of (setTabConfig id kv1 st))))
         !! id = Some (Some t) ∧
       (∀ k v, kv2 !! k = Some v → t !! k = Some v) ∧
       (∀ k v, kv2 !! k = None → kv1 !! k = Some v →
               k ≠ "canGoBack" → k ≠ "canGoForward" → t !! k = Some v) ∧
       (∀ k, kv2 !! k = None → kv1 !! k = None →
             k ≠ "canGoBack" → k ≠ "canGoForward" →
             t !! k = default ∅ (mjoin (tabConfigs st !! id)) !! k).
Proof.
  rewrite !setTabConfig_run. unfold state_of. cbn [fst snd].
  rewrite !tabConfigs_set. split.
  - rewrite insert_insert_eq. f_equal. f_equal.
    apply map_eq. intros k. rewrite !merge_tab_lookup.
    rewrite tabConfigs_set, lookup_insert_eq. cbn [mjoin option_join default].
    change (Datatypes.id ?x) with x. rewrite merge_tab_lookup.
    rewrite !live_flag_set_confs.
    destruct (kv1 !! k); [done|]. by repeat case_decide.
  - eexists. rewrite lookup_insert_eq. split; [done|].
    split_and!.
    + intros k v Hk. by rewrite merge_tab_lookup, Hk.
    + intros k v Hk2 Hk1 Hb Hf. rewrite merge_tab_lookup, Hk2.
      rewrite !decide_False by done.
      rewrite tabConfigs_set, lookup_insert_eq. cbn [mjoin option_join default].
      change (Datatypes.id ?x) with x. by rewrite merge_tab_lookup, Hk1.
    + intros k Hk2 Hk1 Hb Hf. rewrite merge_tab_lookup, Hk2.
      rewrite !decide_False by done.
      rewrite tabConfigs_set, lookup_insert_eq. cbn [mjoin option_join default].
      change (Datatypes.id ?x) with x. rewrite merge_tab_lookup, Hk1.
      by rewrite !decide_False.
Qed.
